(** * HealthAI backend: the outbound call to IBM Granite

    A shallow embedding of [get_granite_response] of [Document/app.py]: the
    function that guards on the two credentials, posts one JSON request to
    the watsonx.ai text-generation endpoint and turns the reply, or an
    exception raised on the way, into the text handed back to the Flask
    routes; and of those routes and the Streamlit frontend that calls
    them.

    The Python objects the function touches are modelled as they are used:
    - values decoded by [response.json()] and the [payload] dictionary are
      Python values ([value]);
    - [requests.post] is the transport, a function from the request to a
      response object or to the exception it raises;
    - [print] and [requests.post] are the two effects; both are recorded, in
      order, in a trace, and [print] raises when the standard output cannot
      encode the line;
    - [try]/[except] is a handler table searched in source order. *)

From Stdlib Require Import String Ascii List ZArith Bool Lia.
From Stdlib Require Import DecimalString.
From Stdlib Require Import PrimFloat Floats.SpecFloat Floats.FloatOps.
Import ListNotations.

Set Warnings "-register-all,-inexact-float".

Local Open Scope string_scope.
Local Open Scope Z_scope.

(** ** Python values *)

(** What [json.loads] produces, and what [json.dumps] accepts: [None],
    [bool], [int], [float], [str], [list] and [dict] with [str] keys.  A
    [dict] is kept as its items in insertion order; keys are unique in a
    Python dict, and [dict_get] reads the first binding of a key.  A [str]
    is kept as its UTF-8 bytes. *)
Inductive value : Type :=
| VNone
| VBool (b : bool)
| VInt (n : Z)
| VFloat (x : float)
| VStr (s : string)
| VList (items : list value)
| VDict (items : list (string * value)).

Fixpoint dict_get (key : string) (items : list (string * value)) : option value :=
  match items with
  | [] => None
  | (k, v) :: rest => if String.eqb key k then Some v else dict_get key rest
  end.

Definition dict_keys (items : list (string * value)) : list string :=
  map fst items.

(** [bool(v)]: the truth value Python gives to [v] in [if v and ...]. *)
Definition truthy (v : value) : bool :=
  match v with
  | VNone => false
  | VBool b => b
  | VInt n => negb (n =? 0)
  | VFloat x => negb (PrimFloat.eqb x 0%float)
  | VStr s => negb (String.eqb s "")
  | VList items => match items with [] => false | _ => true end
  | VDict items => match items with [] => false | _ => true end
  end.

(** ** Exceptions *)

(** The exceptions that can travel through the [try] block, all of them
    subclasses of [Exception] ([KeyboardInterrupt] and [SystemExit], which
    derive from [BaseException] alone, ask the process to stop and are not
    faults of the call).  The first five are raised by [requests.post];
    [HTTPError] is raised by [raise_for_status] only and carries the two
    attributes of [e.response] that its handler reads.  A body that does
    not decode makes [response.json()] raise an exception that derives
    from the [JSONDecodeError] of the module [requests] decodes with: that
    of [json] where [simplejson] cannot be imported ([JSONDecodeError]),
    that of [simplejson] where it can ([JSONDecodeError_simplejson], a
    [ValueError] that is no [json.JSONDecodeError]).  [ValueError] is what
    [int] raises on a numeral longer than the interpreter's digit limit and
    [RecursionError] what the decoder raises on arrays and objects nested
    too deep; [response.json()] lets both pass.  The next four come from
    operations on the decoded value, [UnboundLocalError] from reading a
    local variable before its assignment and [UnicodeEncodeError] from
    [print].  [HTTPException] is werkzeug's, raised by
    [request.get_json()] in the routes, with the status Flask answers.
    [OtherException] stands for an exception of any other class outside the
    four hierarchies named by the handlers ([TooManyRedirects],
    [ChunkedEncodingError], ...). *)
Inductive exn : Type :=
| ConnectTimeout
| ReadTimeout
| ConnectionError
| SSLError
| ProxyError
| HTTPError (status_code : Z) (text : string)
| JSONDecodeError
| JSONDecodeError_simplejson
| ValueError
| RecursionError
| TypeError
| KeyError
| IndexError
| AttributeError
| UnboundLocalError
| UnicodeEncodeError
| HTTPException (status_code : Z)
| OtherException (name : string).

(** The classes named in the [except] clauses. *)
Inductive exn_class : Type :=
| requests_Timeout
| requests_ConnectionError
| requests_HTTPError
| json_JSONDecodeError
| builtin_Exception.

(** [isinstance(e, C)].  [ConnectTimeout] derives from both
    [ConnectionError] and [Timeout]; [SSLError] and [ProxyError] derive from
    [ConnectionError]. *)
Definition isinstance (e : exn) (c : exn_class) : bool :=
  match c, e with
  | builtin_Exception, _ => true
  | requests_Timeout, (ConnectTimeout | ReadTimeout) => true
  | requests_ConnectionError,
    (ConnectTimeout | ConnectionError | SSLError | ProxyError) => true
  | requests_HTTPError, HTTPError _ _ => true
  | json_JSONDecodeError, JSONDecodeError => true
  | _, _ => false
  end.

Inductive result (A : Type) : Type :=
| Ok (a : A)
| Raise (e : exn).
Arguments Ok {A} a.
Arguments Raise {A} e.

(** ** Operations on decoded values *)

(** [needle in s] for two strings. *)
Definition str_contains (needle s : string) : bool :=
  match String.index 0 needle s with
  | Some _ => true
  | None => false
  end.

Definition is_str (needle : string) (v : value) : bool :=
  match v with
  | VStr s => String.eqb s needle
  | _ => false
  end.

(** [key in container] with [key] a [str]: key membership for a dict,
    element equality for a list, substring for a str, [TypeError] for
    anything that is not iterable. *)
Definition py_in (key : string) (container : value) : result bool :=
  match container with
  | VDict items => Ok (existsb (String.eqb key) (dict_keys items))
  | VList items => Ok (existsb (is_str key) items)
  | VStr s => Ok (str_contains key s)
  | _ => Raise TypeError
  end.

(** [container[key]] with [key] a [str]. *)
Definition py_getitem_str (container : value) (key : string) : result value :=
  match container with
  | VDict items =>
      match dict_get key items with
      | Some v => Ok v
      | None => Raise KeyError
      end
  | _ => Raise TypeError
  end.

(** [len(v)].  On a [str] the model counts bytes where Python counts code
    points; the source only compares the length with [0]. *)
Definition py_len (v : value) : result Z :=
  match v with
  | VStr s => Ok (Z.of_nat (String.length s))
  | VList items => Ok (Z.of_nat (List.length items))
  | VDict items => Ok (Z.of_nat (List.length items))
  | _ => Raise TypeError
  end.

(** The first code point of a UTF-8 string: its first byte and the
    continuation bytes (10xxxxxx) that follow it. *)
Fixpoint continuation_bytes (s : string) : string :=
  match s with
  | String c rest =>
      if andb (128 <=? Z.of_nat (nat_of_ascii c)) (Z.of_nat (nat_of_ascii c) <? 192)
      then String c (continuation_bytes rest)
      else EmptyString
  | EmptyString => EmptyString
  end.

Definition first_char (s : string) : option string :=
  match s with
  | String c rest => Some (String c (continuation_bytes rest))
  | EmptyString => None
  end.

(** [container[0]].  A dict decoded from JSON has only [str] keys, so the
    key [0] is never present. *)
Definition py_getitem_0 (container : value) : result value :=
  match container with
  | VList items =>
      match items with
      | v :: _ => Ok v
      | [] => Raise IndexError
      end
  | VStr s =>
      match first_char s with
      | Some c => Ok (VStr c)
      | None => Raise IndexError
      end
  | VDict _ => Raise KeyError
  | _ => Raise TypeError
  end.

(** [obj.get(key, default)]: only a dict has the method. *)
Definition py_get (obj : value) (key : string) (default : value) : result value :=
  match obj with
  | VDict items =>
      match dict_get key items with
      | Some v => Ok v
      | None => Ok default
      end
  | _ => Raise AttributeError
  end.

(** [str(n)] for an [int]. *)
Definition str_of_int (n : Z) : string :=
  NilZero.string_of_int (Z.to_int n).

(** ** The HTTP collaborator *)

(** The arguments of [requests.post(url, headers=, json=, timeout=)]. *)
Record Request : Type := mkRequest {
  url : string;
  headers : list (string * value);
  json : value;
  timeout : Z
}.

(** A response object, by the three members the function uses:
    [status_code], [text] and the outcome of calling [json()]. *)
Record Response : Type := mkResponse {
  status_code : Z;
  text : string;
  json_ : result value
}.

(** What [requests.post] raises.  It raises neither [HTTPError] (raised by
    [raise_for_status] only) nor [JSONDecodeError] (raised by [json()]
    only). *)
Inductive post_fault : Type :=
| post_ConnectTimeout
| post_ReadTimeout
| post_ConnectionError
| post_SSLError
| post_ProxyError
| post_Other (name : string).

Definition exn_of_post_fault (f : post_fault) : exn :=
  match f with
  | post_ConnectTimeout => ConnectTimeout
  | post_ReadTimeout => ReadTimeout
  | post_ConnectionError => ConnectionError
  | post_SSLError => SSLError
  | post_ProxyError => ProxyError
  | post_Other name => OtherException name
  end.

(** The transport: what one call of [requests.post] does with a request. *)
Definition Transport : Type := Request -> Response + post_fault.

(** Three places where the wait given as [timeout=] can run out, and what
    [requests.post] raises there.  The wait bounds the connection attempt
    and each read from the socket.  [requests] reads the whole body before
    [post] returns; it reports a read that ran out while the status line
    and the headers were awaited as [ReadTimeout], and one that ran out
    while the body was read as [ConnectionError]. *)
Inductive stall : Type :=
| stall_connecting
| stall_awaiting_response
| stall_reading_body.

Definition fault_of_stall (place : stall) : post_fault :=
  match place with
  | stall_connecting => post_ConnectTimeout
  | stall_awaiting_response => post_ReadTimeout
  | stall_reading_body => post_ConnectionError
  end.

(** ** The interpreter *)

(** The interpreter the code runs in, by what the code asks of its library
    and of its standard output:
    - [str_other]: [str()] on a float, a list or a dict (what an f-string
      does with such a value), and [json_dumps]: [json.dumps];
    - [str_exn]: [str(e)] for an exception whose message the model does
      not know;
    - [stdout]: whether [sys.stdout], with its encoding and error handler,
      takes a text that has a character outside ASCII; a text of ASCII
      characters is taken by every encoding Python gives a console.  A
      stream that is closed or whose pipe is broken is outside the model;
    - [int_max_str_digits]: the longest numeral [int] converts
      ([sys.get_int_max_str_digits()], 4300 unless set otherwise), [0] for
      no limit, as before Python 3.11;
    - [json_max_depth]: how deep arrays and objects may nest in a text the
      decoder takes, which the recursion limit decides. *)
Record python : Type := mkPython {
  str_other : value -> string;
  json_dumps : value -> string;
  str_exn : exn -> string;
  stdout : string -> bool;
  int_max_str_digits : nat;
  json_max_depth : nat
}.

(** [f"{v}"]: a [str] stands for itself, [None], a [bool] and an [int] are
    written as Python writes them. *)
Definition py_format (py : python) (v : value) : string :=
  match v with
  | VStr s => s
  | VNone => "None"
  | VBool true => "True"
  | VBool false => "False"
  | VInt n => str_of_int n
  | _ => str_other py v
  end.

Fixpoint is_ascii (s : string) : bool :=
  match s with
  | String c rest => (Z.of_nat (nat_of_ascii c) <? 128) && is_ascii rest
  | EmptyString => true
  end.

(** Whether [sys.stdout] takes the text [s]. *)
Definition can_encode (py : python) (s : string) : bool :=
  is_ascii s || stdout py s.

(** The exceptions whose message is ASCII whatever they were raised for:
    those the interpreter and the decoders raise, whose messages are fixed
    English texts around numbers, names of built-in types and characters
    written as escapes. *)
Definition ascii_message (e : exn) : bool :=
  match e with
  | JSONDecodeError | JSONDecodeError_simplejson | ValueError | RecursionError
  | TypeError | KeyError | IndexError | AttributeError | UnboundLocalError
  | UnicodeEncodeError => true
  | _ => false
  end.

(** ** Effects *)

(** The pieces of a formatted line given to [print]. *)
Inductive fragment : Type :=
| Text (s : string)
| StrOfValue (v : value)
| StrOfExn (e : exn).

Inductive event : Type :=
| Post (r : Request)
| Print (line : list fragment).

(** The state a call runs in: the effects so far, oldest first, and the
    local variable [response], unbound until line 71 assigns it. *)
Record state : Type := mkState {
  trace : list event;
  response : option Response
}.

Definition initial : state := {| trace := []; response := None |}.

Definition M (A : Type) : Type := state -> result A * state.

Class Monad (m : Type -> Type) : Type := {
  ret : forall {A}, A -> m A;
  bind : forall {A B}, m A -> (A -> m B) -> m B
}.

#[export] Instance Monad_result : Monad result := {
  ret := fun A a => Ok a;
  bind := fun A B c k => match c with Ok a => k a | Raise e => Raise e end
}.

#[export] Instance Monad_M : Monad M := {
  ret := fun A a s => (Ok a, s);
  bind := fun A B c k s =>
    match c s with
    | (Ok a, s') => k a s'
    | (Raise e, s') => (Raise e, s')
    end
}.

Declare Scope monad_scope.
Delimit Scope monad_scope with monad.
Notation "x <- c ;; k" := (bind c (fun x => k))
  (at level 61, c at next level, right associativity) : monad_scope.
Notation "c ;;; k" := (bind c (fun _ => k))
  (at level 61, right associativity) : monad_scope.
Local Open Scope monad_scope.

Definition raise {A : Type} (e : exn) : M A := fun s => (Raise e, s).

Definition lift {A : Type} (r : result A) : M A := fun s => (r, s).

Definition emit (ev : event) : M unit :=
  fun s => (Ok tt, {| trace := trace s ++ [ev]; response := response s |}).

(** [print(line)]: the line goes to [sys.stdout] whole, or nothing does and
    [UnicodeEncodeError] is raised, when the stream cannot encode one of
    its pieces. *)
Definition can_write (py : python) (f : fragment) : bool :=
  match f with
  | Text s => can_encode py s
  | StrOfValue v => can_encode py (py_format py v)
  | StrOfExn e => ascii_message e || can_encode py (str_exn py e)
  end.

Definition can_print (py : python) (line : list fragment) : bool :=
  forallb (can_write py) line.

Definition print (py : python) (line : list fragment) : M unit :=
  if can_print py line then emit (Print line) else raise UnicodeEncodeError.

Definition set_response (r : Response) : M unit :=
  fun s => (Ok tt, {| trace := trace s; response := Some r |}).

(** Reading the local [response]: [UnboundLocalError] before the
    assignment. *)
Definition get_response : M Response :=
  fun s => match response s with
           | Some r => (Ok r, s)
           | None => (Raise UnboundLocalError, s)
           end.

(** [requests.post(...)]: one network call, recorded whether it returns or
    raises. *)
Definition requests_post (post : Transport) (r : Request) : M Response :=
  emit (Post r) ;;;
  match post r with
  | inl resp => ret resp
  | inr f => raise (exn_of_post_fault f)
  end.

(** [response.raise_for_status()]: [HTTPError] for 4xx and 5xx. *)
Definition is_error_status (code : Z) : bool :=
  andb (400 <=? code) (code <? 600).

Definition raise_for_status (r : Response) : M unit :=
  if is_error_status (status_code r)
  then raise (HTTPError (status_code r) (text r))
  else ret tt.

(** [try: body except C1: h1 except C2: h2 ...]: the first clause whose
    class the exception is an instance of handles it; with no such clause
    the exception leaves the statement. *)
Fixpoint dispatch {A : Type} (clauses : list (exn_class * (exn -> M A)))
  (e : exn) : M A :=
  match clauses with
  | [] => raise e
  | (c, h) :: rest => if isinstance e c then h e else dispatch rest e
  end.

Definition try_except {A : Type} (body : M A)
  (clauses : list (exn_class * (exn -> M A))) : M A :=
  fun s =>
    match body s with
    | (Ok a, s') => (Ok a, s')
    | (Raise e, s') => dispatch clauses e s'
    end.

(** ** [app.py] *)

(** The two module-level variables read from the environment at start-up:
    [os.getenv] gives [None] or a [str]. *)
Record globals : Type := mkGlobals {
  ibm_api_key : option string;
  ibm_project_id : option string
}.

(** [not v] for a variable holding [None] or a [str]. *)
Definition py_not (v : option string) : bool :=
  match v with
  | None => true
  | Some s => String.eqb s ""
  end.

(** [f"{v}"] and the value itself, for such a variable. *)
Definition format_opt (v : option string) : string :=
  match v with
  | None => "None"
  | Some s => s
  end.

Definition value_of_opt (v : option string) : value :=
  match v with
  | None => VNone
  | Some s => VStr s
  end.

Definition API_URL : string :=
  "https://us-south.ml.cloud.ibm.com/ml/v1-beta/generation/text?version=2023-05-29".

Definition MODEL_ID : string := "ibm/granite-13b-instruct-v2".

(** Lines 48-54. *)
Definition make_headers (g : globals) : list (string * value) :=
  [ ("Authorization", VStr ("Bearer " ++ format_opt (ibm_api_key g)));
    ("Content-Type", VStr "application/json");
    ("Accept", VStr "application/json");
    ("ibm-metrics-api-token", value_of_opt (ibm_api_key g));
    ("ML-Instance-ID", value_of_opt (ibm_project_id g)) ].

(** Lines 57-67. *)
Definition make_payload (g : globals) (prompt_text : string) : value :=
  VDict
    [ ("model_id", VStr MODEL_ID);
      ("input", VStr prompt_text);
      ("parameters",
        VDict
          [ ("decoding_method", VStr "greedy");
            ("max_new_tokens", VInt 500);
            ("min_new_tokens", VInt 50);
            ("repetition_penalty", VFloat 1.1%float) ]);
      ("project_id", value_of_opt (ibm_project_id g)) ].

Definition make_request (g : globals) (prompt_text : string) : Request :=
  {| url := API_URL;
     headers := make_headers g;
     json := make_payload g prompt_text;
     timeout := 60 |}.

(** The texts returned on the failure paths (lines 40, 83, 87, 90, 93, 96
    and 100). *)
Definition MSG_NOT_CONFIGURED : string :=
  "Error: IBM API Key or Project ID is not configured.".
Definition MSG_UNEXPECTED_FORMAT : string :=
  "An unexpected response format was received from the AI.".
Definition MSG_TIMEOUT : string :=
  "The AI took too long to respond. Please try again.".
Definition MSG_NO_CONNECTION : string :=
  "Could not connect to the AI service. Please check your network connection.".
Definition msg_api_error (code : Z) : string :=
  "An API error occurred: " ++ str_of_int code ++
  ". Please check your credentials or API usage.".
Definition MSG_UNREADABLE : string :=
  "Received an unreadable response from the AI service.".
Definition MSG_INTERNAL : string :=
  "An internal error occurred while processing your request with the AI.".

(** The default of [.get] on line 80. *)
Definition NO_TEXT : string := "No text generated.".

(** Line 79:
    [response_data and "results" in response_data
       and len(response_data["results"]) > 0],
    evaluated left to right with short circuit. *)
Definition has_results (response_data : value) : result bool :=
  if truthy response_data then
    found <- py_in "results" response_data ;;
    if found : bool then
      results <- py_getitem_str response_data "results" ;;
      n <- py_len results ;;
      ret (0 <? n)
    else ret false
  else ret false.

(** Line 80: [response_data["results"][0].get("generated_text", ...)]. *)
Definition first_generated_text (response_data : value) : result value :=
  results <- py_getitem_str response_data "results" ;;
  first <- py_getitem_0 results ;;
  py_get first "generated_text" (VStr NO_TEXT).

(** The lines given to [print], by their line in the source. *)
Definition line_82 (response_data : value) : list fragment :=
  [Text "Unexpected API response structure: "; StrOfValue response_data].

Definition line_86 : list fragment :=
  [Text "Error: Request to IBM Granite API timed out."].

Definition line_89 : list fragment :=
  [Text "Error: Could not connect to IBM Granite API. Check network and API URL."].

Definition line_92 (code : Z) (body : string) : list fragment :=
  [Text "HTTP Error calling IBM Granite API: "; Text (str_of_int code);
   Text " - "; Text body].

Definition line_95 (body : string) : list fragment :=
  [Text "Error: Could not decode JSON from API response: "; Text body].

Definition line_99 (e : exn) : list fragment :=
  [Text "An unexpected error occurred while interacting with IBM Granite API: ";
   StrOfExn e].

(** Lines 70-83, the body of the [try]. *)
Definition try_body (py : python) (post : Transport) (req : Request) : M value :=
  resp <- requests_post post req ;;
  set_response resp ;;;
  raise_for_status resp ;;;
  response_data <- lift (json_ resp) ;;
  ok <- lift (has_results response_data) ;;
  if ok : bool then
    lift (first_generated_text response_data)
  else
    print py (line_82 response_data) ;;;
    ret (VStr MSG_UNEXPECTED_FORMAT).

(** Lines 85-100, the [except] clauses in source order.  An exception
    raised inside a clause, by its [print], leaves the [try] statement. *)
Definition on_Timeout (py : python) (e : exn) : M value :=
  print py line_86 ;;;
  ret (VStr MSG_TIMEOUT).

Definition on_ConnectionError (py : python) (e : exn) : M value :=
  print py line_89 ;;;
  ret (VStr MSG_NO_CONNECTION).

Definition on_HTTPError (py : python) (e : exn) : M value :=
  match e with
  | HTTPError code body =>
      print py (line_92 code body) ;;;
      ret (VStr (msg_api_error code))
  | _ => raise AttributeError
  end.

Definition on_JSONDecodeError (py : python) (e : exn) : M value :=
  resp <- get_response ;;
  print py (line_95 (text resp)) ;;;
  ret (VStr MSG_UNREADABLE).

Definition on_Exception (py : python) (e : exn) : M value :=
  print py (line_99 e) ;;;
  ret (VStr MSG_INTERNAL).

Definition except_clauses (py : python) : list (exn_class * (exn -> M value)) :=
  [ (requests_Timeout, on_Timeout py);
    (requests_ConnectionError, on_ConnectionError py);
    (requests_HTTPError, on_HTTPError py);
    (json_JSONDecodeError, on_JSONDecodeError py);
    (builtin_Exception, on_Exception py) ].

(** Lines 34-100. *)
Definition get_granite_response (py : python) (g : globals) (post : Transport)
  (prompt_text : string) : M value :=
  if orb (py_not (ibm_api_key g)) (py_not (ibm_project_id g)) then
    ret (VStr MSG_NOT_CONFIGURED)
  else
    try_except (try_body py post (make_request g prompt_text)) (except_clauses py).

(** One call, from the moment it is entered: what it hands back (a value or
    an exception that left it) and the effects it had. *)
Definition call (py : python) (g : globals) (post : Transport)
  (prompt_text : string) : result value * list event :=
  let (r, s) := get_granite_response py g post prompt_text initial in
  (r, trace s).

Definition returned (py : python) (g : globals) (post : Transport)
  (prompt_text : string) : result value :=
  fst (call py g post prompt_text).

Definition effects (py : python) (g : globals) (post : Transport)
  (prompt_text : string) : list event :=
  snd (call py g post prompt_text).

(** The network calls among the effects. *)
Fixpoint posts (evs : list event) : list Request :=
  match evs with
  | [] => []
  | Post r :: rest => r :: posts rest
  | Print _ :: rest => posts rest
  end.

(** ** A reference decoder for [json.loads]

    [response.json()] hands the body text to Python's JSON decoder.  The
    functions below follow that decoder on a [str] (strict mode): the
    grammar of RFC 8259 with the three extra constants [NaN], [Infinity]
    and [-Infinity], [int] for a number without fraction and exponent and
    [float] otherwise, the last binding of a repeated key, and
    [JSONDecodeError] for everything else, trailing text included.  The
    decoder stops at the first thing it cannot take, reading from the
    left: an integer numeral longer than the digit limit of [int] raises
    [ValueError], and an array or object opened deeper than the recursion
    limit allows raises [RecursionError]. *)

Definition code (c : ascii) : Z := Z.of_nat (nat_of_ascii c).

Definition chr (n : Z) : ascii := ascii_of_nat (Z.to_nat n).

(** The double quote. *)
Definition quote : ascii := "034".

Definition is_whitespace (c : ascii) : bool :=
  Ascii.eqb c " " || Ascii.eqb c "009" || Ascii.eqb c "010" || Ascii.eqb c "013".

Fixpoint skip_whitespace (s : string) : string :=
  match s with
  | String c rest => if is_whitespace c then skip_whitespace rest else s
  | EmptyString => s
  end.

(** [s[len(p):]] when [s.startswith(p)]. *)
Fixpoint strip_prefix (p s : string) : option string :=
  match p, s with
  | EmptyString, _ => Some s
  | String a p', String b s' => if Ascii.eqb a b then strip_prefix p' s' else None
  | String _ _, EmptyString => None
  end.

(** [s[1:]] when [s] starts with the character [c]. *)
Definition expect (c : ascii) (s : string) : option string :=
  match s with
  | String c' rest => if Ascii.eqb c c' then Some rest else None
  | EmptyString => None
  end.

Definition is_digit (c : ascii) : bool := (48 <=? code c) && (code c <=? 57).

(** The longest run of digits at the head of [s], read in base ten after
    the digits already in [acc], with its length and what follows it. *)
Fixpoint take_digits (acc : Z) (count : Z) (s : string) : Z * Z * string :=
  match s with
  | String c rest =>
      if is_digit c then take_digits (10 * acc + (code c - 48)) (count + 1) rest
      else (acc, count, s)
  | EmptyString => (acc, count, s)
  end.

(** [float(text)] for the decimal [m * 10^e] with [0 <= m], correctly
    rounded to binary64 (ties to even), with the sign [neg]. *)
Definition float_of_decimal (neg : bool) (m e : Z) : float :=
  let digits := Z.of_nat (String.length (str_of_int m)) in
  let magnitude :=
    if m =? 0 then zero
    else if e + digits <=? -324 then zero
    else if 309 <=? e + digits - 1 then infinity
    else if 0 <=? e then SF2Prim (binary_normalize prec emax (m * 10 ^ e) 0 false)
    else
      let d := 10 ^ (- e) in
      let sh := Z.max 0 (64 + Z.log2 d - Z.log2 m) in
      let q := (m * 2 ^ sh) / d in
      let sticky := if (m * 2 ^ sh) mod d =? 0 then 0 else 1 in
      SF2Prim (binary_normalize prec emax (2 * q + sticky) (- sh - 1) false)
  in
  if neg then (- magnitude)%float else magnitude.

(** The parts of a number.  The integer part is [0], or a non-zero digit
    and the digits after it; a fraction (a point and at least one digit)
    and an exponent ([e] or [E], an optional sign, at least one digit) are
    read only when they are complete. *)
Definition scan_sign (s : string) : bool * string :=
  match expect "-" s with
  | Some rest => (true, rest)
  | None => (false, s)
  end.

Definition scan_integer (s : string) : option (Z * string) :=
  match s with
  | String c rest =>
      if Ascii.eqb c "0" then Some (0, rest)
      else if is_digit c then
        let '(n, _, rest') := take_digits 0 0 s in Some (n, rest')
      else None
  | EmptyString => None
  end.

(** The digits of the fraction as a number, and how many they are. *)
Definition scan_fraction (s : string) : option (Z * Z) * string :=
  match expect "." s with
  | Some after =>
      match take_digits 0 0 after with
      | (_, 0, _) => (None, s)
      | (digits, count, rest) => (Some (digits, count), rest)
      end
  | None => (None, s)
  end.

Definition scan_exponent (s : string) : option Z * string :=
  match s with
  | String c after =>
      if Ascii.eqb c "e" || Ascii.eqb c "E" then
        let (negative, digits) :=
          match expect "-" after, expect "+" after with
          | Some d, _ => (true, d)
          | None, Some d => (false, d)
          | None, None => (false, after)
          end in
        match take_digits 0 0 digits with
        | (_, 0, _) => (None, s)
        | (x, _, rest) => (Some (if negative then - x else x), rest)
        end
      else (None, s)
  | EmptyString => (None, s)
  end.

Definition scan_number (s : string) : option (value * string) :=
  let (neg, s1) := scan_sign s in
  match scan_integer s1 with
  | None => None
  | Some (n, s2) =>
      let (fraction, s3) := scan_fraction s2 in
      let (exponent, s4) := scan_exponent s3 in
      match fraction, exponent with
      | None, None => Some (VInt (if neg then - n else n), s4)
      | Some (digits, count), None =>
          Some (VFloat (float_of_decimal neg (n * 10 ^ count + digits) (- count)), s4)
      | None, Some e =>
          Some (VFloat (float_of_decimal neg n e), s4)
      | Some (digits, count), Some e =>
          Some (VFloat (float_of_decimal neg (n * 10 ^ count + digits) (e - count)), s4)
      end
  end.

Inductive scanned (A : Type) : Type :=
| Scanned (a : A) (rest : string)
| Failed (e : exn)
| OutOfFuel.
Arguments Scanned {A} a rest.
Arguments Failed {A} e.
Arguments OutOfFuel {A}.

(** The digits of the integer numeral that starts [s] and ends where
    [rest] starts, its sign not counted, and the test [int] makes on
    them. *)
Definition count_digits (s rest : string) : nat :=
  (String.length s - String.length rest - (if fst (scan_sign s) then 1 else 0))%nat.

Definition too_many_digits (py : python) (digits : nat) : bool :=
  (0 <? int_max_str_digits py)%nat && (int_max_str_digits py <? digits)%nat.

(** A value that is neither a string, an object nor an array: [null],
    [true], [false], a number, or one of the three extra constants. *)
Definition scan_scalar (py : python) (s : string) : scanned value :=
  match strip_prefix "null" s, strip_prefix "true" s, strip_prefix "false" s with
  | Some rest, _, _ => Scanned VNone rest
  | None, Some rest, _ => Scanned (VBool true) rest
  | None, None, Some rest => Scanned (VBool false) rest
  | None, None, None =>
      match scan_number s with
      | Some (VInt n, rest) =>
          if too_many_digits py (count_digits s rest)
          then Failed ValueError
          else Scanned (VInt n) rest
      | Some (v, rest) => Scanned v rest
      | None =>
          match strip_prefix "NaN" s, strip_prefix "Infinity" s,
                strip_prefix "-Infinity" s with
          | Some rest, _, _ => Scanned (VFloat nan) rest
          | None, Some rest, _ => Scanned (VFloat infinity) rest
          | None, None, Some rest => Scanned (VFloat neg_infinity) rest
          | None, None, None => Failed JSONDecodeError
          end
      end
  end.

Definition hex_digit (c : ascii) : option Z :=
  let n := code c in
  if (48 <=? n) && (n <=? 57) then Some (n - 48)
  else if (65 <=? n) && (n <=? 70) then Some (n - 55)
  else if (97 <=? n) && (n <=? 102) then Some (n - 87)
  else None.

Definition hex4 (a b c d : ascii) : option Z :=
  match hex_digit a, hex_digit b, hex_digit c, hex_digit d with
  | Some x3, Some x2, Some x1, Some x0 => Some (4096 * x3 + 256 * x2 + 16 * x1 + x0)
  | _, _, _, _ => None
  end.

(** The character a two-character escape stands for. *)
Definition simple_escape (e : ascii) : option ascii :=
  if Ascii.eqb e quote then Some quote
  else if Ascii.eqb e "\" then Some "\"%char
  else if Ascii.eqb e "/" then Some "/"%char
  else if Ascii.eqb e "b" then Some "008"%char
  else if Ascii.eqb e "f" then Some "012"%char
  else if Ascii.eqb e "n" then Some "010"%char
  else if Ascii.eqb e "r" then Some "013"%char
  else if Ascii.eqb e "t" then Some "009"%char
  else None.

(** The pieces of a string literal: a byte taken as it stands, or the
    16-bit unit of a [\uXXXX] escape. *)
Inductive piece : Type :=
| Byte (c : ascii)
| Unit16 (n : Z).

Definition prepend (p : piece) (r : option (list piece * string))
  : option (list piece * string) :=
  match r with
  | Some (ps, rest) => Some (p :: ps, rest)
  | None => None
  end.

(** The literal up to its closing quote, the opening quote already read.
    A control character, an unknown escape and a missing quote are
    errors. *)
Fixpoint scan_string (s : string) : option (list piece * string) :=
  match s with
  | EmptyString => None
  | String c rest =>
      if Ascii.eqb c quote then Some ([], rest)
      else if Ascii.eqb c "\" then
        match rest with
        | String e rest1 =>
            if Ascii.eqb e "u" then
              match rest1 with
              | String h3 (String h2 (String h1 (String h0 rest2))) =>
                  match hex4 h3 h2 h1 h0 with
                  | Some n => prepend (Unit16 n) (scan_string rest2)
                  | None => None
                  end
              | _ => None
              end
            else
              match simple_escape e with
              | Some b => prepend (Byte b) (scan_string rest1)
              | None => None
              end
        | EmptyString => None
        end
      else if code c <? 32 then None
      else prepend (Byte c) (scan_string rest)
  end.

(** UTF-8 for a code point; a lone surrogate gets the three-byte form. *)
Definition utf8 (n : Z) : string :=
  if n <? 128 then String (chr n) EmptyString
  else if n <? 2048 then
    String (chr (192 + n / 64)) (String (chr (128 + n mod 64)) EmptyString)
  else if n <? 65536 then
    String (chr (224 + n / 4096))
      (String (chr (128 + (n / 64) mod 64))
        (String (chr (128 + n mod 64)) EmptyString))
  else
    String (chr (240 + n / 262144))
      (String (chr (128 + (n / 4096) mod 64))
        (String (chr (128 + (n / 64) mod 64))
          (String (chr (128 + n mod 64)) EmptyString))).

Definition is_surrogate_pair (hi lo : Z) : bool :=
  (55296 <=? hi) && (hi <=? 56319) && (56320 <=? lo) && (lo <=? 57343).

(** The text of a literal: a high surrogate directly followed by a low one
    is one code point. *)
Fixpoint assemble (ps : list piece) : string :=
  match ps with
  | [] => EmptyString
  | Byte c :: rest => String c (assemble rest)
  | Unit16 hi :: rest =>
      match rest with
      | Unit16 lo :: rest' =>
          if is_surrogate_pair hi lo
          then (utf8 (65536 + (hi - 55296) * 1024 + (lo - 56320)) ++ assemble rest')%string
          else (utf8 hi ++ assemble rest)%string
      | _ => (utf8 hi ++ assemble rest)%string
      end
  end.

(** [d[key] = v] on the items of a dict: a key already present keeps its
    place and takes the new value. *)
Fixpoint dict_set (key : string) (v : value) (items : list (string * value))
  : list (string * value) :=
  match items with
  | [] => [(key, v)]
  | (k, x) :: rest =>
      if String.eqb k key then (k, v) :: rest else (k, x) :: dict_set key v rest
  end.

(** One value at the head of [s]; the items of an array, from its first
    item or the one after a comma; the members of an object, likewise.
    [depth] is how many arrays and objects may still be opened around the
    value. *)
Fixpoint scan_value (py : python) (fuel depth : nat) (s : string) : scanned value :=
  match fuel with
  | O => OutOfFuel
  | S fuel' =>
      match s with
      | String c rest =>
          if Ascii.eqb c quote then
            match scan_string rest with
            | Some (ps, rest') => Scanned (VStr (assemble ps)) rest'
            | None => Failed JSONDecodeError
            end
          else if Ascii.eqb c "{" then
            match depth with
            | O => Failed RecursionError
            | S depth' =>
                match expect "}" (skip_whitespace rest) with
                | Some rest' => Scanned (VDict []) rest'
                | None => scan_members py fuel' depth' [] (skip_whitespace rest)
                end
            end
          else if Ascii.eqb c "[" then
            match depth with
            | O => Failed RecursionError
            | S depth' =>
                match expect "]" (skip_whitespace rest) with
                | Some rest' => Scanned (VList []) rest'
                | None => scan_items py fuel' depth' [] (skip_whitespace rest)
                end
            end
          else scan_scalar py s
      | EmptyString => Failed JSONDecodeError
      end
  end
with scan_items (py : python) (fuel depth : nat) (acc : list value) (s : string)
  : scanned value :=
  match fuel with
  | O => OutOfFuel
  | S fuel' =>
      match scan_value py fuel' depth s with
      | Scanned v rest =>
          match expect "]" (skip_whitespace rest), expect "," (skip_whitespace rest) with
          | Some rest', _ => Scanned (VList (acc ++ [v])) rest'
          | None, Some rest' => scan_items py fuel' depth (acc ++ [v]) (skip_whitespace rest')
          | None, None => Failed JSONDecodeError
          end
      | Failed e => Failed e
      | OutOfFuel => OutOfFuel
      end
  end
with scan_members (py : python) (fuel depth : nat) (acc : list (string * value))
  (s : string) : scanned value :=
  match fuel with
  | O => OutOfFuel
  | S fuel' =>
      match expect quote s with
      | Some rest =>
          match scan_string rest with
          | Some (ps, rest1) =>
              match expect ":" (skip_whitespace rest1) with
              | Some rest2 =>
                  match scan_value py fuel' depth (skip_whitespace rest2) with
                  | Scanned v rest3 =>
                      let acc' := dict_set (assemble ps) v acc in
                      match expect "}" (skip_whitespace rest3),
                            expect "," (skip_whitespace rest3) with
                      | Some rest4, _ => Scanned (VDict acc') rest4
                      | None, Some rest4 =>
                          scan_members py fuel' depth acc' (skip_whitespace rest4)
                      | None, None => Failed JSONDecodeError
                      end
                  | Failed e => Failed e
                  | OutOfFuel => OutOfFuel
                  end
              | None => Failed JSONDecodeError
              end
          | None => Failed JSONDecodeError
          end
      | None => Failed JSONDecodeError
      end
  end.

(** Fuel that is always enough (lemma [scan_fuel] below): a value, an item
    and a member each read at least one character, and each costs at most
    two nested calls. *)
Definition enough_fuel (s : string) : nat := 2 * String.length s + 1.

(** [json.loads(s)]: one value between optional whitespace, nothing
    after. *)
Definition json_loads (py : python) (s : string) : result value :=
  match scan_value py (enough_fuel s) (json_max_depth py) (skip_whitespace s) with
  | Scanned v rest =>
      match skip_whitespace rest with
      | EmptyString => Ok v
      | _ => Raise JSONDecodeError
      end
  | Failed e => Raise e
  | OutOfFuel => Raise JSONDecodeError
  end.

(** A JSON text from a literal that has an apostrophe wherever the text
    has a double quote. *)
Fixpoint json_text (s : string) : string :=
  match s with
  | String c rest =>
      String (if Ascii.eqb c "'" then "034"%char else c) (json_text rest)
  | EmptyString => EmptyString
  end.

(** The response object [requests] builds for a status line and a body
    text in an interpreter where [simplejson] cannot be imported, so that
    [response.json()] decodes with [json.loads] and passes on what it
    raises; and the one it builds where [simplejson] can be imported, for a
    body that is no JSON: that decoder is not modelled, and on such a body
    [response.json()] raises the exception that derives from its
    [JSONDecodeError]. *)
Definition http_response (py : python) (code : Z) (body : string) : Response :=
  {| status_code := code; text := body; json_ := json_loads py body |}.

Definition undecodable_with_simplejson (code : Z) (body : string) : Response :=
  {| status_code := code; text := body; json_ := Raise JSONDecodeError_simplejson |}.

(** ** The vocabulary of the specification *)

(** The specification speaks of a [generate] operation with typed outcomes;
    the code returns a text.  [failure kind s] says that [s] is the text
    [get_granite_response] returns on the path the specification calls a
    failure of kind [kind]. *)
Inductive ErrorKind : Type :=
| ConfigurationMissing
| Timeout
| Unreachable
| RemoteError
| MalformedResponse
| UnexpectedShape
| Internal.

Inductive failure : ErrorKind -> string -> Prop :=
| failure_ConfigurationMissing : failure ConfigurationMissing MSG_NOT_CONFIGURED
| failure_Timeout : failure Timeout MSG_TIMEOUT
| failure_Unreachable : failure Unreachable MSG_NO_CONNECTION
| failure_RemoteError : forall code, failure RemoteError (msg_api_error code)
| failure_MalformedResponse : failure MalformedResponse MSG_UNREADABLE
| failure_UnexpectedShape : failure UnexpectedShape MSG_UNEXPECTED_FORMAT
| failure_Internal : failure Internal MSG_INTERNAL.

(** The decimal text of a number from 100 to 999, digit by digit: what
    the specification means by a detail that contains the status code. *)
Definition digit (d : Z) : ascii := chr (48 + d).

Definition three_digits (n : Z) : string :=
  String (digit (n / 100))
    (String (digit ((n / 10) mod 10)) (String (digit (n mod 10)) EmptyString)).

(** Both credentials are set to a non-empty string. *)
Definition configured (g : globals) : bool :=
  negb (py_not (ibm_api_key g)) && negb (py_not (ibm_project_id g)).

(** The failure classes the [except] clauses name. *)
Definition enumerated (e : exn) : bool :=
  isinstance e requests_Timeout || isinstance e requests_ConnectionError ||
  isinstance e requests_HTTPError || isinstance e json_JSONDecodeError.

(** ** Stubs for the worked examples *)

Definition example_globals : globals :=
  {| ibm_api_key := Some "api-key"; ibm_project_id := Some "project-1" |}.

Definition example_prompt : string := "What helps a headache?".

(** The interpreter of the worked examples: stand-ins for the library
    functions, a console whose encoding is ASCII (it takes no text that has
    a character outside ASCII), the digit limit of Python 3.11 and room
    for a thousand nested arrays and objects. *)
Definition example_python : python :=
  {| str_other := fun _ => "<value>";
     json_dumps := fun _ => "<json>";
     str_exn := fun _ => "<exception>";
     stdout := fun _ => false;
     int_max_str_digits := 4300;
     json_max_depth := 1000 |}.

(** An interpreter whose console encodes in UTF-8: it takes every text but
    one that holds a surrogate, whose three bytes start with 237 and a byte
    from 160 on. *)
Fixpoint has_surrogate (s : string) : bool :=
  match s with
  | String a rest =>
      match rest with
      | String b _ => (code a =? 237) && (160 <=? code b)
      | EmptyString => false
      end || has_surrogate rest
  | EmptyString => false
  end.

Definition utf8_python : python :=
  {| str_other := str_other example_python;
     json_dumps := json_dumps example_python;
     str_exn := str_exn example_python;
     stdout := fun s => negb (has_surrogate s);
     int_max_str_digits := 4300;
     json_max_depth := 1000 |}.

(** An interpreter with the lowest digit limit Python lets one set, 640,
    and room for two nested arrays or objects; and the numeral made of [n]
    nines. *)
Definition small_python : python :=
  {| str_other := str_other example_python;
     json_dumps := json_dumps example_python;
     str_exn := str_exn example_python;
     stdout := stdout example_python;
     int_max_str_digits := 640;
     json_max_depth := 2 |}.

Fixpoint nines (n : nat) : string :=
  match n with
  | O => EmptyString
  | S n' => String "9" (nines n')
  end.

(** A transport that answers every request with one response, and one
    that fails every request in one way. *)
Definition answering (code : Z) (body : string) : Transport :=
  fun _ => inl (http_response example_python code body).

Definition failing (f : post_fault) : Transport :=
  fun _ => inr f.

(** The response bodies of the examples. *)
Definition body_aspirin : string :=
  json_text "{'results':[{'generated_text':'Take two aspirin'}]}".

Definition body_empty_results : string := json_text "{'results':[]}".

Definition body_html : string := "<html>error</html>".

(** The two bytes of an e with an acute accent, a text that is no JSON and
    that an ASCII console cannot take; and the same between double quotes,
    a JSON string. *)
Definition e_acute : string := String "195" (String "169" EmptyString).

Definition body_e_acute : string := String quote (e_acute ++ String quote EmptyString).

(** A JSON string that holds one escape, of a low surrogate without its
    high one. *)
Definition body_lone_surrogate : string := json_text "'\udc00'".

Definition body_number : string := "5".

Definition body_number_result : string := json_text "{'results':[5]}".

Definition body_no_generated_text : string :=
  json_text "{'results':[{'stop_reason':'eos_token'}]}".


(** ** What a call prints *)

(** The lines given to [print] among the effects. *)
Fixpoint prints (evs : list event) : list (list fragment) :=
  match evs with
  | [] => []
  | Post _ :: rest => prints rest
  | Print line :: rest => line :: prints rest
  end.

(** ** The Flask routes of [app.py] *)

(** A view function hands back a value, or lets an exception leave, and has
    effects: those of the call of [get_granite_response] it makes. *)
Definition Effectful (A : Type) : Type := result A * list event.

#[export] Instance Monad_Effectful : Monad Effectful := {
  ret := fun A a => (Ok a, []);
  bind := fun A B c k =>
    match c with
    | (Ok a, t) => let (r, t') := k a in (r, (t ++ t')%list)
    | (Raise e, t) => (Raise e, t)
    end
}.

Definition pure {A : Type} (r : result A) : Effectful A := (r, []).

(** What a view function returns: the object given to [jsonify] and the
    status, 200 when the source names none. *)
Definition HttpReply : Type := (value * Z)%type.

Definition HOME_TEXT : string := "HealthAI Flask Backend is running!".

(** Lines 104-107. *)
Definition home : string := HOME_TEXT.

(** The prompts of lines 123-128, 151-157, 177-182 and 203-207. *)
Definition chat_prompt (user_message : string) : string :=
  "As a compassionate and informative healthcare assistant, please provide a clear " ++
  "and concise answer to the following health-related question. Always ensure " ++
  "to mention that this information is for general knowledge and not a substitute " ++
  "for professional medical advice. Question: '" ++ user_message ++ "'".

Definition prediction_prompt (symptoms profile_str : string) : string :=
  "A user describes the following symptoms: '" ++ symptoms ++ "'. " ++
  "The user's profile is: " ++ profile_str ++ ". " ++
  "Based on this information, list potential conditions, their approximate likelihood, " ++
  "and suggest general next steps. Emphasize that a professional medical diagnosis " ++
  "is essential and this is for informational purposes only.".

Definition treatment_prompt (condition profile_str : string) : string :=
  "Based on the diagnosed condition '" ++ condition ++
  "' and the patient profile: " ++ profile_str ++ ", " ++
  "create a comprehensive, evidence-based treatment plan. Include suggestions for " ++
  "medications, lifestyle modifications, and follow-up testing. State clearly that " ++
  "this plan is an AI-generated suggestion and should be reviewed by a medical doctor.".

Definition analytics_prompt (data_str profile_str : string) : string :=
  "Analyze the following health metrics: " ++ data_str ++
  " for a patient with profile: " ++ profile_str ++ ". " ++
  "Identify any potential trends, concerns, or areas for improvement. " ++
  "Provide actionable recommendations. Remind the user to consult a healthcare professional for interpretation.".

(** Lines 109-132.  [request_json] is what [request.get_json()] does: the
    decoded body of the request, or the exception it raises. *)
Definition chat_with_ai (py : python) (g : globals) (post : Transport)
  (request_json : result value) : Effectful HttpReply :=
  data <- pure request_json ;;
  user_message <- pure (py_get data "message" VNone) ;;
  if negb (truthy user_message) then
    ret (VDict [("error", VStr "No message provided")], 400)
  else
    let prompt_for_granite := chat_prompt (py_format py user_message) in
    ai_response <- call py g post prompt_for_granite ;;
    ret (VDict [("response", ai_response)], 200).

(** Lines 134-161. *)
Definition predict_disease (py : python) (g : globals) (post : Transport)
  (request_json : result value) : Effectful HttpReply :=
  data <- pure request_json ;;
  symptoms <- pure (py_get data "symptoms" VNone) ;;
  patient_profile <- pure (py_get data "profile" (VDict [])) ;;
  if negb (truthy symptoms) then
    ret (VDict [("error", VStr "No symptoms provided")], 400)
  else
    let profile_str := json_dumps py patient_profile in
    let prompt_for_granite :=
      prediction_prompt (py_format py symptoms) profile_str in
    ai_response <- call py g post prompt_for_granite ;;
    ret (VDict [("prediction", ai_response)], 200).

(** Lines 163-186. *)
Definition generate_treatment_plan (py : python) (g : globals) (post : Transport)
  (request_json : result value) : Effectful HttpReply :=
  data <- pure request_json ;;
  condition <- pure (py_get data "condition" VNone) ;;
  patient_profile <- pure (py_get data "profile" (VDict [])) ;;
  if negb (truthy condition) then
    ret (VDict [("error", VStr "No condition provided")], 400)
  else
    let profile_str := json_dumps py patient_profile in
    let prompt_for_granite :=
      treatment_prompt (py_format py condition) profile_str in
    ai_response <- call py g post prompt_for_granite ;;
    ret (VDict [("plan", ai_response)], 200).

(** Lines 188-211. *)
Definition health_analytics_insights (py : python) (g : globals) (post : Transport)
  (request_json : result value) : Effectful HttpReply :=
  data <- pure request_json ;;
  health_data <- pure (py_get data "data" VNone) ;;
  patient_profile <- pure (py_get data "profile" (VDict [])) ;;
  if negb (truthy health_data) then
    ret (VDict [("error", VStr "No health data provided")], 400)
  else
    let data_str := json_dumps py health_data in
    let profile_str := json_dumps py patient_profile in
    let prompt_for_granite := analytics_prompt data_str profile_str in
    ai_response <- call py g post prompt_for_granite ;;
    ret (VDict [("insights", ai_response)], 200).

(** [d.get(key, default)] on the items of a dict, and the test the routes
    make on a required field: it is absent, or Python takes its value for
    false ([None], [False], zero, an empty string, list or dict). *)
Definition dict_get_default (key : string) (default : value)
  (items : list (string * value)) : value :=
  match dict_get key items with
  | Some v => v
  | None => default
  end.

Definition absent_or_falsy (key : string) (items : list (string * value)) : bool :=
  negb (truthy (dict_get_default key VNone items)).

(** A generation whose text is [null]. *)
Definition body_null_text : string :=
  json_text "{'results':[{'generated_text':null}]}".

(** ** [streamlit_app.py] *)

(** The installed [requests], by what [response.json()] raises on a body
    that is no JSON: from version 2.27 on a
    [requests.exceptions.JSONDecodeError], which is a [RequestException]
    whatever decoder is installed; before, the [JSONDecodeError] of the
    decoder itself, which is no [RequestException] (that of
    [simplejson], where it can be imported, is no [json.JSONDecodeError]
    either, and is a case of [Fails] below).  The repository pins no
    version. *)
Inductive requests_lib : Type :=
| requests_from_2_27
| requests_before_2_27.

(** What [response.json()] does on a response of the backend: it returns
    the decoded body; or the body is no JSON and it raises the
    [JSONDecodeError] of the installed [requests]; or it raises an
    exception of another class, which it gets from the decoder and passes
    on: the [ValueError] of a numeral longer than the digit limit, a
    [RecursionError], or the [JSONDecodeError] of [simplejson] under a
    [requests] before 2.27. *)
Inductive json_outcome : Type :=
| Decoded (v : value)
| Undecodable
| Fails (name : string).

(** A response of the backend, by the two members the frontend uses. *)
Record ApiResponse : Type := mkApiResponse {
  api_status : Z;
  api_json : json_outcome
}.

(** What [requests.post] raises, by the classes the clauses of
    [call_flask_api] tell apart: a [ConnectTimeout], which is a
    [ConnectionError]; another [ConnectionError] ([SSLError] and
    [ProxyError] included); a [ReadTimeout]; any other
    [RequestException]; an exception that is no [RequestException]. *)
Inductive api_fault : Type :=
| api_ConnectTimeout
| api_ConnectionError
| api_ReadTimeout
| api_RequestException (name : string)
| api_Exception (name : string).

(** The backend as the frontend meets it. *)
Definition Api : Type := Request -> ApiResponse + api_fault.

(** The exceptions that travel through the frontend.  [ui_Builtin] is a
    built-in exception raised by an operation on a value ([TypeError],
    [KeyError], [AttributeError]). *)
Inductive ui_exn : Type :=
| ui_ConnectTimeout
| ui_ConnectionError
| ui_ReadTimeout
| ui_HTTPError (r : ApiResponse)
| ui_JSONDecodeError (lib : requests_lib)
| ui_RequestException (name : string)
| ui_Builtin (e : exn)
| ui_Exception (name : string).

Definition ui_of_fault (f : api_fault) : ui_exn :=
  match f with
  | api_ConnectTimeout => ui_ConnectTimeout
  | api_ConnectionError => ui_ConnectionError
  | api_ReadTimeout => ui_ReadTimeout
  | api_RequestException name => ui_RequestException name
  | api_Exception name => ui_Exception name
  end.

(** The classes named in the [except] clauses of [call_flask_api]. *)
Inductive ui_class : Type :=
| cls_ConnectionError
| cls_HTTPError
| cls_RequestException
| cls_JSONDecodeError.

(** [isinstance(e, C)].  Every exception of [requests] is a
    [RequestException]; the [JSONDecodeError] of [response.json()] is one
    from version 2.27 on only. *)
Definition ui_isinstance (e : ui_exn) (c : ui_class) : bool :=
  match c, e with
  | cls_ConnectionError, (ui_ConnectTimeout | ui_ConnectionError) => true
  | cls_HTTPError, ui_HTTPError _ => true
  | cls_RequestException,
    (ui_ConnectTimeout | ui_ConnectionError | ui_ReadTimeout | ui_HTTPError _
     | ui_JSONDecodeError requests_from_2_27 | ui_RequestException _) => true
  | cls_JSONDecodeError, ui_JSONDecodeError _ => true
  | _, _ => false
  end.

(** The pieces of a formatted text shown to the user. *)
Inductive ui_fragment : Type :=
| UiText (s : string)
| UiValue (v : value)
| UiExn (e : ui_exn).

(** The effects of the frontend: a request to the backend, and what
    Streamlit is asked to show. *)
Inductive ui_event : Type :=
| ApiPost (r : Request)
| StSpinner (text : string)
| StSuccess (line : list ui_fragment)
| StMarkdown (body : value)
| StError (line : list ui_fragment)
| StWarning (text : string).

Inductive ui_result (A : Type) : Type :=
| Done (a : A)
| Escaped (e : ui_exn).
Arguments Done {A} a.
Arguments Escaped {A} e.

Definition UI (A : Type) : Type := ui_result A * list ui_event.

#[export] Instance Monad_UI : Monad UI := {
  ret := fun A a => (Done a, []);
  bind := fun A B c k =>
    match c with
    | (Done a, t) => let (r, t') := k a in (r, (t ++ t')%list)
    | (Escaped e, t) => (Escaped e, t)
    end
}.

Definition ui_emit (ev : ui_event) : UI unit := (Done tt, [ev]).

Definition ui_raise {A : Type} (e : ui_exn) : UI A := (Escaped e, []).

Definition ui_lift {A : Type} (r : result A) : UI A :=
  match r with
  | Ok a => (Done a, [])
  | Raise e => (Escaped (ui_Builtin e), [])
  end.

Fixpoint ui_dispatch {A : Type} (clauses : list (ui_class * (ui_exn -> UI A)))
  (e : ui_exn) : UI A :=
  match clauses with
  | [] => ui_raise e
  | (c, h) :: rest => if ui_isinstance e c then h e else ui_dispatch rest e
  end.

Definition ui_try {A : Type} (body : UI A)
  (clauses : list (ui_class * (ui_exn -> UI A))) : UI A :=
  match body with
  | (Done a, t) => (Done a, t)
  | (Escaped e, t) => let (r, t') := ui_dispatch clauses e in (r, (t ++ t')%list)
  end.

Definition api_post (api : Api) (r : Request) : UI ApiResponse :=
  ui_emit (ApiPost r) ;;;
  match api r with
  | inl resp => ret resp
  | inr f => ui_raise (ui_of_fault f)
  end.

Definition api_raise_for_status (r : ApiResponse) : UI unit :=
  if is_error_status (api_status r) then ui_raise (ui_HTTPError r) else ret tt.

Definition api_response_json (lib : requests_lib) (r : ApiResponse) : UI value :=
  match api_json r with
  | Decoded v => ret v
  | Undecodable => ui_raise (ui_JSONDecodeError lib)
  | Fails name => ui_raise (ui_Exception name)
  end.

(** The request of line 45; no headers are given. *)
Definition api_request (FLASK_API_URL endpoint : string) (payload : value) : Request :=
  {| url := FLASK_API_URL ++ "/" ++ endpoint;
     headers := [];
     json := payload;
     timeout := 60 |}.

(** The four [except] clauses, lines 48-61. *)
Definition on_api_ConnectionError (FLASK_API_URL : string) (e : ui_exn) : UI value :=
  ui_emit (StError [UiText "Error: Could not connect to the Flask backend at ";
                    UiText FLASK_API_URL; UiText ". ";
                    UiText "Please ensure the backend (app.py) is running."]) ;;;
  ret (VDict [("error", VStr "Backend not reachable.")]).

Definition on_api_HTTPError (lib : requests_lib) (e : ui_exn) : UI value :=
  match e with
  | ui_HTTPError r =>
      body <- api_response_json lib r ;;
      detail <- ui_lift (py_get body "error" (VStr "Unknown API error")) ;;
      ui_emit (StError [UiText "Error from Flask API (";
                        UiText (str_of_int (api_status r)); UiText "): ";
                        UiValue detail]) ;;;
      ret (VDict [("error", VStr "API request failed.")])
  | _ => ui_raise (ui_Builtin AttributeError)
  end.

Definition on_api_RequestException (e : ui_exn) : UI value :=
  ui_emit (StError [UiText "An unexpected request error occurred: "; UiExn e]) ;;;
  ret (VDict [("error", VStr "Request error.")]).

Definition UNREADABLE_LINE : list ui_fragment :=
  [UiText "Error: Received an unreadable response from the backend."].

Definition on_api_JSONDecodeError (e : ui_exn) : UI value :=
  ui_emit (StError UNREADABLE_LINE) ;;;
  ret (VDict [("error", VStr "Invalid JSON response.")]).

(** Lines 39-61.  [FLASK_API_URL] is the module-level variable of
    line 12, [lib] the installed [requests]. *)
Definition call_flask_api (lib : requests_lib) (FLASK_API_URL : string) (api : Api)
  (endpoint : string) (payload : value) : UI value :=
  ui_try
    (response <- api_post api (api_request FLASK_API_URL endpoint payload) ;;
     api_raise_for_status response ;;;
     api_response_json lib response)
    [ (cls_ConnectionError, on_api_ConnectionError FLASK_API_URL);
      (cls_HTTPError, on_api_HTTPError lib);
      (cls_RequestException, on_api_RequestException);
      (cls_JSONDecodeError, on_api_JSONDecodeError) ].

(** The four tabs, from the test of the button on (lines 72-82, 104-115,
    133-144 and 170-186).  [clicked] is what [st.button] returned, the
    texts are what the text widgets returned, [age] and [gender] what
    [st.number_input] and [st.selectbox] returned. *)
Definition tab1_patient_chat (lib : requests_lib) (FLASK_API_URL : string) (api : Api)
  (clicked : bool) (user_question : string) : UI unit :=
  if clicked then
    if negb (String.eqb user_question "") then
      ui_emit (StSpinner "HealthAI is thinking...") ;;;
      result <- call_flask_api lib FLASK_API_URL api "chat"
                  (VDict [("message", VStr user_question)]) ;;
      has_response <- ui_lift (py_in "response" result) ;;
      if has_response : bool then
        ui_emit (StSuccess [UiText "Response from HealthAI:"]) ;;;
        body <- ui_lift (py_getitem_str result "response") ;;
        ui_emit (StMarkdown body)
      else
        has_error <- ui_lift (py_in "error" result) ;;
        if has_error : bool then
          detail <- ui_lift (py_getitem_str result "error") ;;
          ui_emit (StError [UiText "Failed to get response: "; UiValue detail])
        else ret tt
    else ui_emit (StWarning "Please enter your question in the text area.")
  else ret tt.

Definition tab2_disease_prediction (lib : requests_lib) (FLASK_API_URL : string) (api : Api)
  (clicked : bool) (symptoms_input : string) (age : Z) (gender : string) : UI unit :=
  if clicked then
    if negb (String.eqb symptoms_input "") then
      ui_emit (StSpinner "Analyzing symptoms and predicting potential conditions...") ;;;
      let patient_profile := VDict [("age", VInt age); ("gender", VStr gender)] in
      result <- call_flask_api lib FLASK_API_URL api "predict_disease"
                  (VDict [("symptoms", VStr symptoms_input);
                          ("profile", patient_profile)]) ;;
      has_prediction <- ui_lift (py_in "prediction" result) ;;
      if has_prediction : bool then
        ui_emit (StSuccess
                   [UiText "Potential Conditions & Recommendations from HealthAI:"]) ;;;
        body <- ui_lift (py_getitem_str result "prediction") ;;
        ui_emit (StMarkdown body)
      else
        has_error <- ui_lift (py_in "error" result) ;;
        if has_error : bool then
          detail <- ui_lift (py_getitem_str result "error") ;;
          ui_emit (StError [UiText "Failed to get prediction: "; UiValue detail])
        else ret tt
    else ui_emit (StWarning "Please describe your symptoms to get a prediction.")
  else ret tt.

Definition tab3_treatment_plans (lib : requests_lib) (FLASK_API_URL : string) (api : Api)
  (clicked : bool) (diagnosed_condition : string) (age_tp : Z) (gender_tp : string)
  : UI unit :=
  if clicked then
    if negb (String.eqb diagnosed_condition "") then
      ui_emit (StSpinner "Generating personalized treatment plan...") ;;;
      let patient_profile_tp := VDict [("age", VInt age_tp); ("gender", VStr gender_tp)] in
      result <- call_flask_api lib FLASK_API_URL api "generate_treatment_plan"
                  (VDict [("condition", VStr diagnosed_condition);
                          ("profile", patient_profile_tp)]) ;;
      has_plan <- ui_lift (py_in "plan" result) ;;
      if has_plan : bool then
        ui_emit (StSuccess [UiText "Treatment Plan for "; UiText diagnosed_condition;
                            UiText " from HealthAI:"]) ;;;
        body <- ui_lift (py_getitem_str result "plan") ;;
        ui_emit (StMarkdown body)
      else
        has_error <- ui_lift (py_in "error" result) ;;
        if has_error : bool then
          detail <- ui_lift (py_getitem_str result "error") ;;
          ui_emit (StError [UiText "Failed to generate plan: "; UiValue detail])
        else ret tt
    else ui_emit (StWarning
                    "Please enter a diagnosed condition to generate a treatment plan.")
  else ret tt.

Definition tab4_health_analytics (lib : requests_lib) (FLASK_API_URL : string) (api : Api)
  (clicked : bool) (health_metrics_input : string) (age_ha : Z) (gender_ha : string)
  : UI unit :=
  if clicked then
    if negb (String.eqb health_metrics_input "") then
      ui_emit (StSpinner "Analyzing health data and generating insights...") ;;;
      let patient_profile_ha := VDict [("age", VInt age_ha); ("gender", VStr gender_ha)] in
      let payload_data := VDict [("data", VStr health_metrics_input);
                                 ("profile", patient_profile_ha)] in
      result <- call_flask_api lib FLASK_API_URL api "health_analytics_insights"
                  payload_data ;;
      has_insights <- ui_lift (py_in "insights" result) ;;
      if has_insights : bool then
        ui_emit (StSuccess [UiText "Health Insights from HealthAI:"]) ;;;
        body <- ui_lift (py_getitem_str result "insights") ;;
        ui_emit (StMarkdown body)
      else
        has_error <- ui_lift (py_in "error" result) ;;
        if has_error : bool then
          detail <- ui_lift (py_getitem_str result "error") ;;
          ui_emit (StError [UiText "Failed to get insights: "; UiValue detail])
        else ret tt
    else ui_emit (StWarning "Please provide some health metrics to get insights.")
  else ret tt.

(** The requests to the backend among the effects of the frontend. *)
Fixpoint api_posts (evs : list ui_event) : list Request :=
  match evs with
  | [] => []
  | ApiPost r :: rest => r :: api_posts rest
  | _ :: rest => api_posts rest
  end.

(** What Flask sends for what a view function did, as the frontend reads
    it, where the model knows it.  For [jsonify] of an object with one key
    and a [str] under it: the status, and a body that decodes to that
    object (one key leaves nothing to sort, and a [str] comes back as it
    went).  For werkzeug's [HTTPException]: its status and an HTML page,
    which is no JSON.  For any other exception that left the view: the
    status 500 and an HTML page.  An object with another value under its
    key is outside the model: [jsonify] sorts the keys of the objects
    inside it, and whether the frontend's decoder takes its numbers and its
    nesting depends on that interpreter's limits. *)
Definition served (r : result HttpReply) : option ApiResponse :=
  match r with
  | Ok (VDict [(key, VStr s)], status) =>
      Some {| api_status := status; api_json := Decoded (VDict [(key, VStr s)]) |}
  | Ok _ => None
  | Raise (HTTPException code) => Some {| api_status := code; api_json := Undecodable |}
  | Raise _ => Some {| api_status := 500; api_json := Undecodable |}
  end.

(** The default of line 12, and a backend that answers every request with
    one response. *)
Definition LOCAL_URL : string := "http://localhost:5000".

Definition api_answering (status : Z) (body : json_outcome) : Api :=
  fun _ => inl {| api_status := status; api_json := body |}.

(** The four objects the [except] clauses of [call_flask_api] return. *)
Definition BACKEND_NOT_REACHABLE : value := VDict [("error", VStr "Backend not reachable.")].
Definition API_REQUEST_FAILED : value := VDict [("error", VStr "API request failed.")].
Definition REQUEST_ERROR : value := VDict [("error", VStr "Request error.")].
Definition INVALID_JSON_RESPONSE : value := VDict [("error", VStr "Invalid JSON response.")].

(** The ways a call of the backend can go, as [call_flask_api] tells
    them apart: [requests.post] raises; the status is no error and the
    body is JSON; the status is no error and the body is no JSON; the
    status is no error and [response.json()] raises another exception; the
    status is an error and the body is a JSON object; the status is an
    error and the body is anything else. *)
Inductive api_case (api : Api) (r : Request) : Type :=
| case_fault (f : api_fault) (H : api r = inr f)
| case_decoded (resp : ApiResponse) (v : value) (H : api r = inl resp)
    (Hs : is_error_status (api_status resp) = false) (Hj : api_json resp = Decoded v)
| case_undecodable (resp : ApiResponse) (H : api r = inl resp)
    (Hs : is_error_status (api_status resp) = false) (Hj : api_json resp = Undecodable)
| case_fails (resp : ApiResponse) (name : string) (H : api r = inl resp)
    (Hs : is_error_status (api_status resp) = false) (Hj : api_json resp = Fails name)
| case_error_object (resp : ApiResponse) (items : list (string * value))
    (H : api r = inl resp)
    (Hs : is_error_status (api_status resp) = true)
    (Hj : api_json resp = Decoded (VDict items))
| case_error_other (resp : ApiResponse) (H : api r = inl resp)
    (Hs : is_error_status (api_status resp) = true)
    (Hj : forall items, api_json resp <> Decoded (VDict items)).

(** * Properties *)

(** ** Python semantics and the decoder on examples *)

Example truthy_nan : truthy (VFloat nan) = true.
Proof. reflexivity. Qed.

Example truthy_negative_zero : truthy (VFloat (-0)%float) = false.
Proof. reflexivity. Qed.

Example str_of_int_500 : str_of_int 500 = "500".
Proof. reflexivity. Qed.

Example str_of_int_negative : str_of_int (-7) = "-7".
Proof. reflexivity. Qed.

Example in_str_is_substring :
  py_in "results" (VStr "no results here") = Ok true /\
  py_in "results" (VStr "result") = Ok false.
Proof. split; reflexivity. Qed.

Example in_int_raises : py_in "results" (VInt 5) = Raise TypeError.
Proof. reflexivity. Qed.

Example connect_timeout_is_both :
  isinstance ConnectTimeout requests_Timeout = true /\
  isinstance ConnectTimeout requests_ConnectionError = true.
Proof. split; reflexivity. Qed.

Example loads_aspirin :
  json_loads example_python body_aspirin
  = Ok (VDict [("results", VList [VDict [("generated_text", VStr "Take two aspirin")]])]).
Proof. reflexivity. Qed.

Example loads_numbers :
  json_loads example_python "[0, -12, 1.1, 1e2, -0.0, 5e-324, 1e400]"
  = Ok (VList [VInt 0; VInt (-12); VFloat 1.1%float; VFloat 100%float;
               VFloat (-0)%float; VFloat 0x1p-1074%float; VFloat infinity]).
Proof. reflexivity. Qed.

Example loads_repeated_key :
  json_loads example_python (json_text "{'a': 1, 'b': 2, 'a': [true, null]}")
  = Ok (VDict [("a", VList [VBool true; VNone]); ("b", VInt 2)]).
Proof. reflexivity. Qed.

(** Escapes, a surrogate pair and a lone surrogate, as the bytes of the
    decoded text. *)
Example loads_escapes :
  match json_loads example_python (json_text "'a\u0041\n\ud83d\ude00\/\udc00'") with
  | Ok (VStr s) => map code (list_ascii_of_string s)
  | _ => []
  end
  = [97; 65; 10; 240; 159; 152; 128; 47; 237; 176; 128].
Proof. reflexivity. Qed.

Example loads_rejects :
  json_loads example_python body_html = Raise JSONDecodeError /\
  json_loads example_python "" = Raise JSONDecodeError /\
  json_loads example_python "[1,]" = Raise JSONDecodeError /\
  json_loads example_python "01" = Raise JSONDecodeError /\
  json_loads example_python "5 5" = Raise JSONDecodeError /\
  json_loads example_python "[[[[" = Raise JSONDecodeError /\
  json_loads example_python e_acute = Raise JSONDecodeError.
Proof. repeat split; reflexivity. Qed.

(** The limits of the interpreter, on [small_python]: the numeral that is
    too long and the bracket that is too deep stop the decoder before it
    reads what follows them. *)
Example loads_limits :
  json_loads small_python ("[-" ++ nines 640 ++ "]") = Ok (VList [VInt (1 - 10 ^ 640)]) /\
  json_loads small_python ("[" ++ nines 641 ++ ", oops") = Raise ValueError /\
  json_loads small_python (nines 641 ++ ".0") = Ok (VFloat infinity) /\
  json_loads small_python "[[1], {}]" = Ok (VList [VList [VInt 1]; VDict []]) /\
  json_loads small_python "[[[]]]" = Raise RecursionError /\
  json_loads small_python "[[[ oops" = Raise RecursionError /\
  json_loads small_python "[[ oops" = Raise JSONDecodeError.
Proof.
  split; [| split; [| split; [| split; [| split; [| split]]]]];
    vm_compute; reflexivity.
Qed.

(** ** The reference decoder always has enough fuel *)

Lemma skip_whitespace_length (s : string) :
  (String.length (skip_whitespace s) <= String.length s)%nat.
Proof.
  induction s as [| c rest IH]; simpl; [lia |].
  destruct (is_whitespace c); simpl; lia.
Qed.

Lemma expect_length (c : ascii) (s rest : string) :
  expect c s = Some rest -> String.length s = S (String.length rest).
Proof.
  destruct s as [| c' s']; simpl; [discriminate |].
  destruct (Ascii.eqb c c'); [| discriminate].
  intro H; injection H as <-. reflexivity.
Qed.

Lemma strip_prefix_length (p s rest : string) :
  strip_prefix p s = Some rest ->
  String.length s = (String.length p + String.length rest)%nat.
Proof.
  revert s. induction p as [| a p' IH]; intros s; simpl.
  - intro H; injection H as <-. reflexivity.
  - destruct s as [| b s']; [discriminate |].
    destruct (Ascii.eqb a b); [| discriminate].
    intro H. simpl. rewrite (IH _ H). reflexivity.
Qed.

Lemma take_digits_length (s : string) :
  forall acc count n k rest,
    take_digits acc count s = (n, k, rest) ->
    (String.length rest <= String.length s)%nat.
Proof.
  induction s as [| c s' IH]; intros acc count n k rest; simpl.
  - intro H; injection H as <- <- <-. simpl. lia.
  - destruct (is_digit c).
    + intro H. pose proof (IH _ _ _ _ _ H). lia.
    + intro H; injection H as <- <- <-. simpl. lia.
Qed.

Lemma scan_integer_length (s : string) (n : Z) (rest : string) :
  scan_integer s = Some (n, rest) ->
  (String.length rest < String.length s)%nat.
Proof.
  unfold scan_integer. destruct s as [| c s']; [discriminate |].
  destruct (Ascii.eqb c "0").
  - intro H; injection H as <- <-. simpl. lia.
  - destruct (is_digit c) eqn:D; [| discriminate].
    simpl. rewrite D.
    match goal with
    | |- context [take_digits ?a ?b s'] =>
        destruct (take_digits a b s') as [[m k] r] eqn:T
    end.
    intro H; injection H as <- <-.
    pose proof (take_digits_length _ _ _ _ _ _ T) as L. simpl. lia.
Qed.

Lemma scan_fraction_length (s : string) (f : option (Z * Z)) (rest : string) :
  scan_fraction s = (f, rest) ->
  (String.length rest <= String.length s)%nat.
Proof.
  unfold scan_fraction. destruct (expect "." s) as [after |] eqn:E.
  - destruct (take_digits 0 0 after) as [[m k] r] eqn:T.
    pose proof (take_digits_length _ _ _ _ _ _ T) as L.
    pose proof (expect_length _ _ _ E) as L'.
    destruct k; intro H; injection H as <- <-; lia.
  - intro H; injection H as <- <-. lia.
Qed.

Lemma scan_exponent_length (s : string) (e : option Z) (rest : string) :
  scan_exponent s = (e, rest) ->
  (String.length rest <= String.length s)%nat.
Proof.
  unfold scan_exponent. destruct s as [| c after].
  - intro H; injection H as <- <-. lia.
  - destruct (Ascii.eqb c "e" || Ascii.eqb c "E").
    + assert (D : forall negative digits,
                 (String.length digits <= String.length after)%nat ->
                 match take_digits 0 0 digits with
                 | (_, 0, _) => (None, String c after)
                 | (x, _, r) => (Some (if negative : bool then - x else x), r)
                 end = (e, rest) ->
                 (String.length rest <= String.length (String c after))%nat).
      { intros negative digits Hd.
        destruct (take_digits 0 0 digits) as [[m k] r] eqn:T.
        pose proof (take_digits_length _ _ _ _ _ _ T) as L.
        destruct k; intro H; injection H as <- <-; simpl; lia. }
      destruct (expect "-" after) as [d |] eqn:E1.
      * apply (D true d). pose proof (expect_length _ _ _ E1) as L'. lia.
      * destruct (expect "+" after) as [d |] eqn:E2.
        -- apply (D false d). pose proof (expect_length _ _ _ E2) as L'. lia.
        -- apply (D false after). lia.
    + intro H; injection H as <- <-. lia.
Qed.

Lemma scan_number_length (s : string) (v : value) (rest : string) :
  scan_number s = Some (v, rest) ->
  (String.length rest < String.length s)%nat.
Proof.
  unfold scan_number, scan_sign.
  assert (S1 : forall neg s1,
             (String.length s1 <= String.length s)%nat ->
             match scan_integer s1 with
             | None => None
             | Some (n, s2) =>
                 let (fraction, s3) := scan_fraction s2 in
                 let (exponent, s4) := scan_exponent s3 in
                 match fraction, exponent with
                 | None, None => Some (VInt (if neg : bool then - n else n), s4)
                 | Some (digits, count), None =>
                     Some (VFloat (float_of_decimal neg (n * 10 ^ count + digits) (- count)), s4)
                 | None, Some e => Some (VFloat (float_of_decimal neg n e), s4)
                 | Some (digits, count), Some e =>
                     Some (VFloat (float_of_decimal neg (n * 10 ^ count + digits) (e - count)), s4)
                 end
             end = Some (v, rest) ->
             (String.length rest < String.length s)%nat).
  { intros neg s1 L1.
    destruct (scan_integer s1) as [[n s2] |] eqn:I; [| discriminate].
    pose proof (scan_integer_length _ _ _ I) as L2.
    destruct (scan_fraction s2) as [fraction s3] eqn:F.
    pose proof (scan_fraction_length _ _ _ F) as L3.
    destruct (scan_exponent s3) as [exponent s4] eqn:E.
    pose proof (scan_exponent_length _ _ _ E) as L4.
    destruct fraction as [[digits count] |], exponent as [e |];
      intro H; injection H as _ <-; lia. }
  destruct (expect "-" s) as [r |] eqn:E.
  - apply (S1 true r). pose proof (expect_length _ _ _ E) as L'. lia.
  - apply (S1 false s). lia.
Qed.

Lemma scan_scalar_length (py : python) (s : string) (v : value) (rest : string) :
  scan_scalar py s = Scanned v rest ->
  (String.length rest < String.length s)%nat.
Proof.
  unfold scan_scalar.
  repeat match goal with
         | |- context [strip_prefix ?p s] =>
             let E := fresh "E" in
             destruct (strip_prefix p s) eqn:E;
             [apply strip_prefix_length in E; simpl in E |]
         end;
    try (intro H; injection H as _ <-; lia);
    destruct (scan_number s) as [[v' r] |] eqn:N;
    try (apply scan_number_length in N);
    try (destruct v'; try destruct (too_many_digits py _));
    intro H; try discriminate; injection H as _ <-; lia.
Qed.

Lemma prepend_some (p : piece) (r : option (list piece * string))
  (ps : list piece) (rest : string) :
  prepend p r = Some (ps, rest) -> exists ps', r = Some (ps', rest).
Proof.
  destruct r as [[ps' rest'] |]; simpl; [| discriminate].
  intro H; injection H as _ <-. exists ps'. reflexivity.
Qed.

Lemma scan_string_length (n : nat) :
  forall s ps rest,
    (String.length s <= n)%nat ->
    scan_string s = Some (ps, rest) ->
    (String.length rest < String.length s)%nat.
Proof.
  induction n as [| n IH]; intros s ps rest Hn.
  - destruct s; [discriminate | simpl in Hn; lia].
  - destruct s as [| c s']; [discriminate |]. simpl in Hn. simpl.
    destruct (Ascii.eqb c quote).
    { intro H; injection H as _ <-. lia. }
    destruct (Ascii.eqb c "\").
    + destruct s' as [| e s1]; [discriminate |].
      destruct (Ascii.eqb e "u").
      * destruct s1 as [| h3 [| h2 [| h1 [| h0 s2]]]]; try discriminate.
        destruct (hex4 h3 h2 h1 h0); [| discriminate].
        intro H. apply prepend_some in H as [ps' H].
        apply IH in H; simpl in *; lia.
      * destruct (simple_escape e); [| discriminate].
        intro H. apply prepend_some in H as [ps' H].
        apply IH in H; simpl in *; lia.
    + destruct (code c <? 32); [discriminate |].
      intro H. apply prepend_some in H as [ps' H].
      apply IH in H; simpl in *; lia.
Qed.

(** Whatever is scanned leaves strictly less than it was given. *)
Lemma scan_consumes (py : python) (fuel : nat) :
  (forall depth s v rest,
      scan_value py fuel depth s = Scanned v rest ->
      (String.length rest < String.length s)%nat) /\
  (forall depth acc s v rest,
      scan_items py fuel depth acc s = Scanned v rest ->
      (String.length rest < String.length s)%nat) /\
  (forall depth acc s v rest,
      scan_members py fuel depth acc s = Scanned v rest ->
      (String.length rest < String.length s)%nat).
Proof.
  induction fuel as [| fuel (IHv & IHi & IHm)].
  - repeat split; intros; discriminate.
  - repeat split.
    + intros depth s v rest. simpl. destruct s as [| c s']; [discriminate |].
      destruct (Ascii.eqb c quote).
      { destruct (scan_string s') as [[ps r] |] eqn:E; [| discriminate].
        intro H; injection H as _ <-.
        pose proof (scan_string_length _ _ _ _ (le_n _) E). simpl. lia. }
      pose proof (skip_whitespace_length s') as W.
      destruct (Ascii.eqb c "{").
      { destruct depth as [| depth']; [discriminate |].
        destruct (expect "}" (skip_whitespace s')) as [r |] eqn:E.
        - intro H; injection H as _ <-. apply expect_length in E. simpl. lia.
        - intro H. apply IHm in H. simpl. lia. }
      destruct (Ascii.eqb c "[").
      { destruct depth as [| depth']; [discriminate |].
        destruct (expect "]" (skip_whitespace s')) as [r |] eqn:E.
        - intro H; injection H as _ <-. apply expect_length in E. simpl. lia.
        - intro H. apply IHi in H. simpl. lia. }
      apply scan_scalar_length.
    + intros depth acc s v rest. simpl.
      destruct (scan_value py fuel depth s) as [v1 r1 | e |] eqn:V; try discriminate.
      apply IHv in V. pose proof (skip_whitespace_length r1) as W.
      destruct (expect "]" (skip_whitespace r1)) as [r |] eqn:E1.
      * intro H; injection H as _ <-. apply expect_length in E1. lia.
      * destruct (expect "," (skip_whitespace r1)) as [r |] eqn:E2;
          [| discriminate].
        intro H. apply IHi in H. apply expect_length in E2.
        pose proof (skip_whitespace_length r). lia.
    + intros depth acc s v rest. simpl.
      destruct (expect quote s) as [r0 |] eqn:E0; [| discriminate].
      apply expect_length in E0.
      destruct (scan_string r0) as [[ps r1] |] eqn:S1; [| discriminate].
      pose proof (scan_string_length _ _ _ _ (le_n _) S1) as L1.
      pose proof (skip_whitespace_length r1) as W1.
      destruct (expect ":" (skip_whitespace r1)) as [r2 |] eqn:E2; [| discriminate].
      apply expect_length in E2.
      pose proof (skip_whitespace_length r2) as W2.
      destruct (scan_value py fuel depth (skip_whitespace r2)) as [v3 r3 | e |] eqn:V;
        try discriminate.
      apply IHv in V. pose proof (skip_whitespace_length r3) as W3.
      destruct (expect "}" (skip_whitespace r3)) as [r4 |] eqn:E3.
      * intro H; injection H as _ <-. apply expect_length in E3. lia.
      * destruct (expect "," (skip_whitespace r3)) as [r4 |] eqn:E4;
          [| discriminate].
        intro H. apply IHm in H. apply expect_length in E4.
        pose proof (skip_whitespace_length r4). lia.
Qed.

(** Two units of fuel for each character, and one more, are enough. *)
Lemma scan_fuel (py : python) (fuel : nat) :
  (forall depth s,
      (2 * String.length s + 1 <= fuel)%nat ->
      scan_value py fuel depth s <> OutOfFuel) /\
  (forall depth acc s,
      (2 * String.length s + 2 <= fuel)%nat ->
      scan_items py fuel depth acc s <> OutOfFuel) /\
  (forall depth acc s,
      (2 * String.length s + 2 <= fuel)%nat ->
      scan_members py fuel depth acc s <> OutOfFuel).
Proof.
  induction fuel as [| fuel (IHv & IHi & IHm)].
  - repeat split; intros; lia.
  - repeat split.
    + intros depth s Hf. simpl. destruct s as [| c s']; [discriminate |].
      simpl in Hf.
      destruct (Ascii.eqb c quote).
      { destruct (scan_string s') as [[ps r] |]; discriminate. }
      pose proof (skip_whitespace_length s') as W.
      destruct (Ascii.eqb c "{").
      { destruct depth as [| depth']; [discriminate |].
        destruct (expect "}" (skip_whitespace s')); [discriminate |].
        apply IHm. lia. }
      destruct (Ascii.eqb c "[").
      { destruct depth as [| depth']; [discriminate |].
        destruct (expect "]" (skip_whitespace s')); [discriminate |].
        apply IHi. lia. }
      unfold scan_scalar.
      repeat match goal with
             | |- context [strip_prefix ?p ?t] => destruct (strip_prefix p t)
             end;
        try discriminate;
        destruct (scan_number (String c s')) as [[v' r] |];
        try discriminate;
        destruct v'; try destruct (too_many_digits py _); discriminate.
    + intros depth acc s Hf. simpl.
      destruct (scan_value py fuel depth s) as [v1 r1 | e |] eqn:V.
      * apply (proj1 (scan_consumes py fuel)) in V.
        destruct (expect "]" (skip_whitespace r1)); [discriminate |].
        destruct (expect "," (skip_whitespace r1)) as [r |] eqn:E2;
          [| discriminate].
        apply expect_length in E2.
        pose proof (skip_whitespace_length r1).
        pose proof (skip_whitespace_length r).
        apply IHi. lia.
      * discriminate.
      * exfalso. revert V. apply IHv. lia.
    + intros depth acc s Hf. simpl.
      destruct (expect quote s) as [r0 |] eqn:E0; [| discriminate].
      apply expect_length in E0.
      destruct (scan_string r0) as [[ps r1] |] eqn:S1; [| discriminate].
      pose proof (scan_string_length _ _ _ _ (le_n _) S1) as L1.
      pose proof (skip_whitespace_length r1) as W1.
      destruct (expect ":" (skip_whitespace r1)) as [r2 |] eqn:E2; [| discriminate].
      apply expect_length in E2.
      pose proof (skip_whitespace_length r2) as W2.
      destruct (scan_value py fuel depth (skip_whitespace r2)) as [v3 r3 | e |] eqn:V.
      * apply (proj1 (scan_consumes py fuel)) in V.
        destruct (expect "}" (skip_whitespace r3)); [discriminate |].
        destruct (expect "," (skip_whitespace r3)) as [r4 |] eqn:E4;
          [| discriminate].
        apply expect_length in E4.
        pose proof (skip_whitespace_length r3).
        pose proof (skip_whitespace_length r4).
        apply IHm. lia.
      * discriminate.
      * exfalso. revert V. apply IHv. lia.
Qed.

(** [json_loads] never stops for lack of fuel: what it raises, it raises
    for the text. *)
Theorem json_loads_fuel (py : python) (s : string) :
  scan_value py (enough_fuel s) (json_max_depth py) (skip_whitespace s) <> OutOfFuel.
Proof.
  apply (proj1 (scan_fuel py (enough_fuel s))). unfold enough_fuel.
  pose proof (skip_whitespace_length s). lia.
Qed.

(** ** Helper lemmas *)

Lemma dict_get_some_key (key : string) (items : list (string * value)) (v : value) :
  dict_get key items = Some v ->
  existsb (String.eqb key) (dict_keys items) = true.
Proof.
  induction items as [| [k x] rest IH]; simpl; intro H.
  - discriminate.
  - destruct (String.eqb key k); [reflexivity | apply IH, H].
Qed.

Lemma dict_get_none_key (key : string) (items : list (string * value)) :
  dict_get key items = None ->
  existsb (String.eqb key) (dict_keys items) = false.
Proof.
  induction items as [| [k x] rest IH]; simpl; intro H.
  - reflexivity.
  - destruct (String.eqb key k); [discriminate | apply IH, H].
Qed.

Lemma configured_guard (g : globals) :
  configured g = true ->
  orb (py_not (ibm_api_key g)) (py_not (ibm_project_id g)) = false.
Proof.
  unfold configured.
  destruct (py_not (ibm_api_key g)), (py_not (ibm_project_id g)); simpl; congruence.
Qed.


Lemma configured_iff (g : globals) :
  configured g = true <->
  exists api_key project_id,
    ibm_api_key g = Some api_key /\ api_key <> "" /\
    ibm_project_id g = Some project_id /\ project_id <> "".
Proof.
  unfold configured, py_not. split.
  - destruct (ibm_api_key g) as [k |], (ibm_project_id g) as [p |]; simpl;
      try discriminate.
    + destruct (String.eqb_spec k ""), (String.eqb_spec p ""); simpl;
        try discriminate.
      intros _. exists k, p. repeat split; assumption.
    + destruct (String.eqb k ""); discriminate.
  - intros (k & p & -> & Hk & -> & Hp).
    destruct (String.eqb_spec k ""), (String.eqb_spec p "");
      try contradiction; reflexivity.
Qed.

(** Lines 79 and 80 and the test [print] makes are reasoned about through
    their lemmas; unfolding a call stops at them. *)
Arguments has_results response_data : simpl never.
Arguments first_generated_text response_data : simpl never.
Arguments can_print py line : simpl never.

(** The lines made of literals of the source are ASCII: every console
    takes them.  So it does the line of the catch-all for an exception
    whose message is ASCII. *)
Lemma can_print_86 (py : python) : can_print py line_86 = true.
Proof. reflexivity. Qed.

Lemma can_print_89 (py : python) : can_print py line_89 = true.
Proof. reflexivity. Qed.

Lemma can_print_99 (py : python) (e : exn) :
  ascii_message e = true -> can_print py (line_99 e) = true.
Proof.
  intro H. unfold can_print, line_99. cbn [forallb can_write]. rewrite H.
  reflexivity.
Qed.

(** Unfolding one call down to the transport's answer. *)
Ltac enter_call :=
  unfold returned, effects, call, get_granite_response.

Ltac run_try :=
  unfold try_except, try_body, requests_post, raise_for_status, set_response,
    emit, lift, raise, initial; cbn.

(** One [print] in a state. *)
Lemma print_ok (py : python) (line : list fragment) (s : state) :
  can_print py line = true ->
  print py line s = (Ok tt, {| trace := trace s ++ [Print line]; response := response s |}).
Proof. intro H. unfold print. rewrite H. reflexivity. Qed.

Lemma print_fails (py : python) (line : list fragment) (s : state) :
  can_print py line = false ->
  print py line s = (Raise UnicodeEncodeError, s).
Proof. intro H. unfold print. rewrite H. reflexivity. Qed.

(** Line 79 on a dict. *)
Lemma has_results_nonempty (items : list (string * value)) (first : value)
  (rest : list value) :
  dict_get "results" items = Some (VList (first :: rest)) ->
  has_results (VDict items) = Ok true.
Proof.
  intro H. unfold has_results.
  assert (T : truthy (VDict items) = true).
  { destruct items; [discriminate | reflexivity]. }
  rewrite T. cbn [bind Monad_result py_in].
  rewrite (dict_get_some_key _ _ _ H).
  cbn [py_getitem_str]. rewrite H. reflexivity.
Qed.

Lemma has_results_missing_or_empty (items : list (string * value)) :
  dict_get "results" items = None \/ dict_get "results" items = Some (VList []) ->
  has_results (VDict items) = Ok false.
Proof.
  intro H. unfold has_results.
  destruct (truthy (VDict items)); [| reflexivity].
  cbn [bind Monad_result py_in]. destruct H as [H | H].
  - rewrite (dict_get_none_key _ _ H). reflexivity.
  - rewrite (dict_get_some_key _ _ _ H). cbn [py_getitem_str]. rewrite H.
    reflexivity.
Qed.

(** Line 79 on a value that is not a dict. *)
Lemma has_results_falsy (response_data : value) :
  truthy response_data = false -> has_results response_data = Ok false.
Proof. intro H. unfold has_results. rewrite H. reflexivity. Qed.

Lemma has_results_list (items : list value) :
  existsb (is_str "results") items = false ->
  has_results (VList items) = Ok false.
Proof.
  intro H. unfold has_results.
  destruct (truthy (VList items)); [| reflexivity].
  cbn [bind Monad_result py_in]. rewrite H. reflexivity.
Qed.

Lemma has_results_str (s : string) :
  str_contains "results" s = false ->
  has_results (VStr s) = Ok false.
Proof.
  intro H. unfold has_results.
  destruct (truthy (VStr s)); [| reflexivity].
  cbn [bind Monad_result py_in]. rewrite H. reflexivity.
Qed.

Lemma has_results_truthy_scalar (response_data : value) :
  truthy response_data = true ->
  match response_data with
  | VBool _ | VInt _ | VFloat _ => True
  | _ => False
  end ->
  has_results response_data = Raise TypeError.
Proof.
  intros T H. unfold has_results. rewrite T.
  destruct response_data; try contradiction; reflexivity.
Qed.

(** Line 80 on a dict. *)
Lemma first_generated_text_present (items first : list (string * value))
  (rest : list value) (v : value) :
  dict_get "results" items = Some (VList (VDict first :: rest)) ->
  dict_get "generated_text" first = Some v ->
  first_generated_text (VDict items) = Ok v.
Proof.
  intros H1 H2. unfold first_generated_text.
  cbn [bind Monad_result py_getitem_str]. rewrite H1.
  cbn [py_getitem_0 py_get]. rewrite H2. reflexivity.
Qed.

Lemma first_generated_text_absent (items first : list (string * value))
  (rest : list value) :
  dict_get "results" items = Some (VList (VDict first :: rest)) ->
  dict_get "generated_text" first = None ->
  first_generated_text (VDict items) = Ok (VStr NO_TEXT).
Proof.
  intros H1 H2. unfold first_generated_text.
  cbn [bind Monad_result py_getitem_str]. rewrite H1.
  cbn [py_getitem_0 py_get]. rewrite H2. reflexivity.
Qed.

(** The exceptions lines 79 and 80 can raise. *)
Lemma has_results_raises (response_data : value) (e : exn) :
  has_results response_data = Raise e -> e = TypeError \/ e = KeyError.
Proof.
  unfold has_results. destruct (truthy response_data); [| discriminate].
  destruct response_data as [| b | n | x | s | items | items];
    cbn [bind Monad_result py_in]; try (intro H; injection H as <-; now left).
  - destruct (str_contains "results" s); cbn; [| discriminate].
    intro H; injection H as <-; now left.
  - destruct (existsb (is_str "results") items); cbn; [| discriminate].
    intro H; injection H as <-; now left.
  - destruct (existsb (String.eqb "results") (dict_keys items)); [| discriminate].
    cbn [py_getitem_str]. destruct (dict_get "results" items) as [r |].
    + destruct r; cbn; try discriminate; intro H; injection H as <-; now left.
    + intro H; injection H as <-; now right.
Qed.

Lemma first_generated_text_raises (response_data : value) (e : exn) :
  first_generated_text response_data = Raise e ->
  e = TypeError \/ e = KeyError \/ e = IndexError \/ e = AttributeError.
Proof.
  unfold first_generated_text.
  destruct response_data as [| b | n | x | s | items | items];
    cbn [bind Monad_result py_getitem_str];
    try (intro H; injection H as <-; now left).
  destruct (dict_get "results" items) as [r |].
  - destruct r as [| b | n | x | s | l | d]; cbn [py_getitem_0];
      try (intro H; injection H as <-; tauto).
    + destruct (first_char s); cbn [py_get];
        intro H; injection H as <-; tauto.
    + destruct l as [| first rest]; [intro H; injection H as <-; tauto |].
      destruct first; cbn [py_get]; try (intro H; injection H as <-; tauto).
      destruct (dict_get "generated_text" items0); discriminate.
  - intro H; injection H as <-; tauto.
Qed.

(** The exceptions lines 79 and 80 raise have ASCII messages. *)
Lemma has_results_raises_ascii (response_data : value) (e : exn) :
  has_results response_data = Raise e -> ascii_message e = true.
Proof.
  intro H. destruct (has_results_raises _ _ H) as [-> | ->]; reflexivity.
Qed.

Lemma first_generated_text_raises_ascii (response_data : value) (e : exn) :
  first_generated_text response_data = Raise e -> ascii_message e = true.
Proof.
  intro H.
  destruct (first_generated_text_raises _ _ H) as [-> | [-> | [-> | ->]]];
    reflexivity.
Qed.

(** What a call does, path by path: the value it hands back or the
    exception that leaves it, and its effects. *)
Ltac by_print :=
  match goal with
  | |- context [print ?py ?line ?s] =>
      let P := fresh "P" in
      destruct (can_print py line) eqn:P;
      [rewrite (print_ok py line s P) | rewrite (print_fails py line s P)]
  end.


(** No generation on this path: the hypotheses contradict the five
    conditions of one. *)
Ltac no_generation :=
  let H1 := fresh in
  let H2 := fresh in
  let H3 := fresh in
  let H4 := fresh in
  let H5 := fresh in
  intros (? & ? & ? & H1 & H2 & H3 & H4 & H5); congruence.

Section Configured.

Variables (py : python) (g : globals) (post : Transport) (prompt_text : string).
Hypothesis Hg : configured g = true.

(** [requests.post] raises. *)
Lemma call_post_fault (f : post_fault) :
  post (make_request g prompt_text) = inr f ->
  call py g post prompt_text
  = if isinstance (exn_of_post_fault f) requests_Timeout then
      (Ok (VStr MSG_TIMEOUT), [Post (make_request g prompt_text); Print line_86])
    else if isinstance (exn_of_post_fault f) requests_ConnectionError then
      (Ok (VStr MSG_NO_CONNECTION), [Post (make_request g prompt_text); Print line_89])
    else if can_print py (line_99 (exn_of_post_fault f)) then
      (Ok (VStr MSG_INTERNAL),
       [Post (make_request g prompt_text); Print (line_99 (exn_of_post_fault f))])
    else (Raise UnicodeEncodeError, [Post (make_request g prompt_text)]).
Proof.
  intro Hpost. enter_call. rewrite (configured_guard g Hg). run_try.
  rewrite Hpost. destruct f; cbn;
    try (rewrite print_ok by reflexivity; reflexivity).
  by_print; reflexivity.
Qed.

(** The status is an error. *)
Lemma call_error_status (resp : Response) :
  post (make_request g prompt_text) = inl resp ->
  is_error_status (status_code resp) = true ->
  call py g post prompt_text
  = if can_print py (line_92 (status_code resp) (text resp)) then
      (Ok (VStr (msg_api_error (status_code resp))),
       [Post (make_request g prompt_text);
        Print (line_92 (status_code resp) (text resp))])
    else (Raise UnicodeEncodeError, [Post (make_request g prompt_text)]).
Proof.
  intros Hpost Hstatus. enter_call. rewrite (configured_guard g Hg).
  run_try. rewrite Hpost. cbn. rewrite Hstatus. cbn.
  by_print; reflexivity.
Qed.

(** The status is no error and [response.json()] raises.  The model lets
    it raise any exception; those of the first three clauses are handled
    as they would be, the [JSONDecodeError] of [json] by the fourth, and
    every other one by the catch-all. *)
Lemma call_json_raises (resp : Response) (e : exn) :
  post (make_request g prompt_text) = inl resp ->
  is_error_status (status_code resp) = false ->
  json_ resp = Raise e ->
  call py g post prompt_text
  = if isinstance e requests_Timeout then
      (Ok (VStr MSG_TIMEOUT), [Post (make_request g prompt_text); Print line_86])
    else if isinstance e requests_ConnectionError then
      (Ok (VStr MSG_NO_CONNECTION), [Post (make_request g prompt_text); Print line_89])
    else
      match e with
      | HTTPError code body =>
          if can_print py (line_92 code body) then
            (Ok (VStr (msg_api_error code)),
             [Post (make_request g prompt_text); Print (line_92 code body)])
          else (Raise UnicodeEncodeError, [Post (make_request g prompt_text)])
      | JSONDecodeError =>
          if can_print py (line_95 (text resp)) then
            (Ok (VStr MSG_UNREADABLE),
             [Post (make_request g prompt_text); Print (line_95 (text resp))])
          else (Raise UnicodeEncodeError, [Post (make_request g prompt_text)])
      | _ =>
          if can_print py (line_99 e) then
            (Ok (VStr MSG_INTERNAL),
             [Post (make_request g prompt_text); Print (line_99 e)])
          else (Raise UnicodeEncodeError, [Post (make_request g prompt_text)])
      end.
Proof.
  intros Hpost Hstatus Hjson. enter_call.
  rewrite (configured_guard g Hg). run_try.
  rewrite Hpost. cbn. rewrite Hstatus. cbn. rewrite Hjson.
  destruct e; cbn;
    try (rewrite print_ok by reflexivity; reflexivity);
    by_print; reflexivity.
Qed.

(** The status is no error and the body decodes: lines 79-83.  An
    exception raised by line 79, by line 80 or by the [print] of line 82
    has an ASCII message, so the catch-all prints its line and returns. *)
Lemma call_decoded (resp : Response) (response_data : value) :
  post (make_request g prompt_text) = inl resp ->
  is_error_status (status_code resp) = false ->
  json_ resp = Ok response_data ->
  call py g post prompt_text
  = match has_results response_data with
    | Ok true =>
        match first_generated_text response_data with
        | Ok v => (Ok v, [Post (make_request g prompt_text)])
        | Raise e =>
            (Ok (VStr MSG_INTERNAL),
             [Post (make_request g prompt_text); Print (line_99 e)])
        end
    | Ok false =>
        if can_print py (line_82 response_data) then
          (Ok (VStr MSG_UNEXPECTED_FORMAT),
           [Post (make_request g prompt_text); Print (line_82 response_data)])
        else
          (Ok (VStr MSG_INTERNAL),
           [Post (make_request g prompt_text); Print (line_99 UnicodeEncodeError)])
    | Raise e =>
        (Ok (VStr MSG_INTERNAL),
         [Post (make_request g prompt_text); Print (line_99 e)])
    end.
Proof.
  intros Hpost Hstatus Hjson. enter_call.
  rewrite (configured_guard g Hg). run_try.
  rewrite Hpost. cbn. rewrite Hstatus. cbn. rewrite Hjson. cbn.
  destruct (has_results response_data) as [[|] | e] eqn:E; cbn.
  - destruct (first_generated_text response_data) as [v | e] eqn:F.
    + reflexivity.
    + pose proof (can_print_99 py e (first_generated_text_raises_ascii _ _ F)) as P.
      destruct (first_generated_text_raises _ _ F) as [-> | [-> | [-> | ->]]];
        cbn; rewrite (print_ok _ _ _ P); reflexivity.
  - by_print; cbn; [reflexivity |].
    rewrite print_ok by reflexivity. reflexivity.
  - pose proof (can_print_99 py e (has_results_raises_ascii _ _ E)) as P.
    destruct (has_results_raises _ _ E) as [-> | ->];
      cbn; rewrite (print_ok _ _ _ P); reflexivity.
Qed.

(** The three ways a call ends once both credentials are set: with a
    generation and nothing printed; with the text of a failure, after one
    printed line; by the [UnicodeEncodeError] of the [print] of an
    [except] clause, nothing printed.  The request has been sent in all
    three. *)
Lemma call_shape :
  (exists resp response_data v,
      post (make_request g prompt_text) = inl resp /\
      is_error_status (status_code resp) = false /\
      json_ resp = Ok response_data /\
      has_results response_data = Ok true /\
      first_generated_text response_data = Ok v /\
      call py g post prompt_text = (Ok v, [Post (make_request g prompt_text)])) \/
  (exists kind s line,
      failure kind s /\
      call py g post prompt_text
      = (Ok (VStr s), [Post (make_request g prompt_text); Print line]) /\
      ~ (exists resp response_data v,
            post (make_request g prompt_text) = inl resp /\
            is_error_status (status_code resp) = false /\
            json_ resp = Ok response_data /\
            has_results response_data = Ok true /\
            first_generated_text response_data = Ok v)) \/
  (exists line,
      can_print py line = false /\
      call py g post prompt_text
      = (Raise UnicodeEncodeError, [Post (make_request g prompt_text)]) /\
      ~ (exists resp response_data v,
            post (make_request g prompt_text) = inl resp /\
            is_error_status (status_code resp) = false /\
            json_ resp = Ok response_data /\
            has_results response_data = Ok true /\
            first_generated_text response_data = Ok v)).
Proof.
  assert (K : forall kind s line,
             failure kind s ->
             ~ (exists resp response_data v,
                   post (make_request g prompt_text) = inl resp /\
                   is_error_status (status_code resp) = false /\
                   json_ resp = Ok response_data /\
                   has_results response_data = Ok true /\
                   first_generated_text response_data = Ok v) ->
             exists kind' s' line',
               failure kind' s' /\
               (Ok (VStr s), [Post (make_request g prompt_text); Print line])
               = (Ok (VStr s'), [Post (make_request g prompt_text); Print line']) /\
               ~ (exists resp response_data v,
                     post (make_request g prompt_text) = inl resp /\
                     is_error_status (status_code resp) = false /\
                     json_ resp = Ok response_data /\
                     has_results response_data = Ok true /\
                     first_generated_text response_data = Ok v)).
  { intros kind s line F N. exists kind, s, line. auto. }
  destruct (post (make_request g prompt_text)) as [resp | f] eqn:Hpost.
  - destruct (is_error_status (status_code resp)) eqn:Hstatus.
    + rewrite (call_error_status resp Hpost Hstatus).
      destruct (can_print py (line_92 (status_code resp) (text resp))) eqn:P.
      * right; left. apply (K RemoteError); [constructor | no_generation].
      * right; right. eexists. repeat split; [exact P | no_generation].
    + destruct (json_ resp) as [response_data | e] eqn:Hjson.
      * rewrite (call_decoded resp response_data Hpost Hstatus Hjson).
        destruct (has_results response_data) as [[|] | e] eqn:E.
        -- destruct (first_generated_text response_data) as [v | e] eqn:F.
           ++ left. exists resp, response_data, v. repeat split; assumption.
           ++ right; left. apply (K Internal); [constructor | no_generation].
        -- right; left.
           destruct (can_print py (line_82 response_data));
             [apply (K UnexpectedShape) | apply (K Internal)];
             (constructor || no_generation).
        -- right; left. apply (K Internal); [constructor | no_generation].
      * rewrite (call_json_raises resp e Hpost Hstatus Hjson).
        destruct e; cbn [isinstance];
          try (right; left; eapply K; [constructor | no_generation]);
          match goal with
          | |- context [can_print py ?line] =>
              let P := fresh "P" in
              destruct (can_print py line) eqn:P;
              [ right; left; eapply K; [constructor | no_generation]
              | right; right; eexists; repeat split; [exact P | no_generation] ]
          end.
  - rewrite (call_post_fault f Hpost).
    destruct f; cbn [isinstance exn_of_post_fault];
      try (right; left; eapply K; [constructor | no_generation]).
    destruct (can_print py (line_99 (OtherException name))) eqn:P.
    + right; left. eapply K; [constructor | no_generation].
    + right; right. eexists. repeat split; [exact P | no_generation].
Qed.

(** Every path makes exactly one network call, with the request built
    from the prompt. *)
Lemma one_post :
  posts (effects py g post prompt_text) = [make_request g prompt_text].
Proof.
  unfold effects.
  destruct call_shape as [(r & d & v & _ & _ & _ & _ & _ & ->)
                          | [(k & s & l & _ & -> & _) | (l & _ & -> & _)]];
    reflexivity.
Qed.

End Configured.

Lemma call_pair (py : python) (g : globals) (post : Transport) (prompt_text : string) :
  call py g post prompt_text
  = (returned py g post prompt_text, effects py g post prompt_text).
Proof.
  unfold returned, effects. destruct (call py g post prompt_text). reflexivity.
Qed.

(** The decimal text of a status code from 400 to 599. *)
Lemma str_of_int_three_digits (n : Z) :
  400 <= n < 600 -> str_of_int n = three_digits n.
Proof.
  intro H.
  assert (A : forallb (fun k => String.eqb (str_of_int (400 + Z.of_nat k))
                                  (three_digits (400 + Z.of_nat k)))
                (seq 0 200) = true) by (vm_compute; reflexivity).
  rewrite forallb_forall in A.
  specialize (A (Z.to_nat (n - 400))).
  replace (400 + Z.of_nat (Z.to_nat (n - 400))) with n in A by lia.
  apply String.eqb_eq, A, in_seq. lia.
Qed.

Lemma no_text_is_no_failure (kind : ErrorKind) : ~ failure kind NO_TEXT.
Proof.
  intro H. inversion H as [ E | E | E | code E | E | E | E ]; discriminate E.
Qed.

(** What a call returns on a transport that answers. *)
Lemma returned_decoded (py : python) (g : globals) (post : Transport)
  (prompt_text : string) (resp : Response) (response_data v : value) :
  configured g = true ->
  post (make_request g prompt_text) = inl resp ->
  is_error_status (status_code resp) = false ->
  json_ resp = Ok response_data ->
  has_results response_data = Ok true ->
  first_generated_text response_data = Ok v ->
  returned py g post prompt_text = Ok v.
Proof.
  intros Hg Hpost Hstatus Hjson Hresults Htext. unfold returned.
  rewrite (call_decoded py g post prompt_text Hg resp _ Hpost Hstatus Hjson).
  rewrite Hresults, Htext. reflexivity.
Qed.

(** What line 79 raises reaches the catch-all. *)
Lemma returned_internal (py : python) (g : globals) (post : Transport)
  (prompt_text : string) (resp : Response) (response_data : value) (e : exn) :
  configured g = true ->
  post (make_request g prompt_text) = inl resp ->
  is_error_status (status_code resp) = false ->
  json_ resp = Ok response_data ->
  has_results response_data = Raise e \/
  (has_results response_data = Ok true /\
   first_generated_text response_data = Raise e) ->
  returned py g post prompt_text = Ok (VStr MSG_INTERNAL).
Proof.
  intros Hg Hpost Hstatus Hjson H. unfold returned.
  rewrite (call_decoded py g post prompt_text Hg resp _ Hpost Hstatus Hjson).
  destruct H as [-> | [-> ->]]; reflexivity.
Qed.

(** ** C1: the configuration guard *)

(** C1.  When the API key or the project id is absent ([None]) or empty,
    [get_granite_response] returns the "not configured" text, the
    ConfigurationMissing failure, and the call has no effect at all: no
    network call and no output happen before or after the guard, whatever
    the transport would have done. *)
Theorem C1_configuration_guard (py : python) (g : globals) (post : Transport)
  (prompt_text : string) :
  ibm_api_key g = None \/ ibm_api_key g = Some "" \/
  ibm_project_id g = None \/ ibm_project_id g = Some "" ->
  call py g post prompt_text = (Ok (VStr MSG_NOT_CONFIGURED), []) /\
  failure ConfigurationMissing MSG_NOT_CONFIGURED.
Proof.
  intro H. split; [| constructor].
  enter_call.
  assert (G : orb (py_not (ibm_api_key g)) (py_not (ibm_project_id g)) = true).
  { destruct H as [H | [H | [H | H]]]; rewrite H; simpl;
      try reflexivity; apply orb_true_r. }
  rewrite G. reflexivity.
Qed.

(** The empty API key of the specification's first test, in front of a
    transport that would have answered. *)
Lemma C1_witness :
  call example_python
       {| ibm_api_key := Some ""; ibm_project_id := Some "project-1" |}
       (answering 200 body_aspirin) example_prompt
  = (Ok (VStr MSG_NOT_CONFIGURED), []) /\
  failure ConfigurationMissing MSG_NOT_CONFIGURED.
Proof.
  apply (C1_configuration_guard example_python
           {| ibm_api_key := Some ""; ibm_project_id := Some "project-1" |}).
  right; left; reflexivity.
Defined.

(** ** C2: the generated text *)

(** C2.  With both credentials set, when the transport answers with a
    response whose status is not an error and whose body decodes to an
    object holding a non-empty "results" array whose first element is an
    object with a string under "generated_text", the call returns exactly
    that string. *)
Theorem C2_success_returns_generated_text (py : python) (g : globals)
  (post : Transport) (prompt_text : string) (resp : Response)
  (items first : list (string * value)) (rest : list value) (generated : string) :
  configured g = true ->
  post (make_request g prompt_text) = inl resp ->
  is_error_status (status_code resp) = false ->
  json_ resp = Ok (VDict items) ->
  dict_get "results" items = Some (VList (VDict first :: rest)) ->
  dict_get "generated_text" first = Some (VStr generated) ->
  returned py g post prompt_text = Ok (VStr generated).
Proof.
  intros Hg Hpost Hstatus Hjson Hresults Htext.
  apply (returned_decoded py g post prompt_text resp (VDict items) _
           Hg Hpost Hstatus Hjson).
  - apply (has_results_nonempty _ _ _ Hresults).
  - apply (first_generated_text_present _ _ _ _ Hresults Htext).
Qed.

(** The body of the specification's fourth test. *)
Lemma C2_witness :
  returned example_python example_globals (answering 200 body_aspirin) example_prompt
  = Ok (VStr "Take two aspirin").
Proof.
  apply (C2_success_returns_generated_text example_python example_globals _ _
           (http_response example_python 200 body_aspirin)
           [("results", VList [VDict [("generated_text", VStr "Take two aspirin")]])]
           [("generated_text", VStr "Take two aspirin")] []);
    reflexivity.
Defined.

(** ** C3: what the caller receives *)



(** ** C4: exceptions and the boundary of the function *)

(** C4 fails on the code.  The [except] clauses print before they return,
    and a [print] that raises inside a clause is caught by no clause: with
    both credentials set, when the status is an error and the standard
    output cannot take the line of line 92, or the body is no JSON and it
    cannot take the line of line 95, the [UnicodeEncodeError] leaves
    [get_granite_response], the request sent and nothing printed.  An
    exception raised inside the [try] block that belongs to none of the
    four named classes yields the "internal error" text, the Internal
    failure, when the standard output takes the line of line 99, and the
    [UnicodeEncodeError] of that line when it does not. *)
Theorem C4_a_failed_print_leaves_the_call (py : python) (g : globals)
  (post : Transport) (prompt_text : string) :
  configured g = true ->
  (forall resp,
      post (make_request g prompt_text) = inl resp ->
      is_error_status (status_code resp) = true ->
      can_print py (line_92 (status_code resp) (text resp)) = false ->
      call py g post prompt_text
      = (Raise UnicodeEncodeError, [Post (make_request g prompt_text)])) /\
  (forall resp,
      post (make_request g prompt_text) = inl resp ->
      is_error_status (status_code resp) = false ->
      json_ resp = Raise JSONDecodeError ->
      can_print py (line_95 (text resp)) = false ->
      call py g post prompt_text
      = (Raise UnicodeEncodeError, [Post (make_request g prompt_text)])) /\
  (forall e s,
      try_body py post (make_request g prompt_text) initial = (Raise e, s) ->
      enumerated e = false ->
      returned py g post prompt_text
      = (if can_print py (line_99 e) then Ok (VStr MSG_INTERNAL)
         else Raise UnicodeEncodeError) /\
      failure Internal MSG_INTERNAL).
Proof.
  intro Hg. split; [| split].
  - intros resp Hpost Hstatus P.
    rewrite (call_error_status py g post prompt_text Hg resp Hpost Hstatus), P.
    reflexivity.
  - intros resp Hpost Hstatus Hjson P.
    rewrite (call_json_raises py g post prompt_text Hg resp _ Hpost Hstatus Hjson).
    cbn [isinstance]. rewrite P. reflexivity.
  - intros e s Hbody Hother. split; [| constructor]. enter_call.
    rewrite (configured_guard g Hg). unfold try_except. rewrite Hbody.
    unfold enumerated in Hother.
    destruct e; cbn in Hother; try discriminate; cbn;
      by_print; reflexivity.
Qed.

(** An internal server error whose body has a character outside ASCII, in
    front of a console that takes ASCII only; and a fault that the clauses
    do not name, too many redirects, in front of a console that takes its
    message. *)
Lemma C4_witness :
  call example_python example_globals (answering 500 e_acute) example_prompt
  = (Raise UnicodeEncodeError, [Post (make_request example_globals example_prompt)]) /\
  returned example_python example_globals
    (failing (post_Other "TooManyRedirects")) example_prompt
  = Ok (VStr MSG_INTERNAL).
Proof.
  split.
  - exact (proj1 (C4_a_failed_print_leaves_the_call example_python example_globals
             (answering 500 e_acute) example_prompt eq_refl)
             (http_response example_python 500 e_acute) eq_refl eq_refl eq_refl).
  - exact (proj1 (proj2 (proj2 (C4_a_failed_print_leaves_the_call example_python
             example_globals
             (failing (post_Other "TooManyRedirects")) example_prompt eq_refl))
             (OtherException "TooManyRedirects") _ eq_refl eq_refl)).
Defined.

(** ** C5: the bounded wait *)

(** C5 fails as stated: a wait that runs out while [requests] reads the
    body makes [requests.post] raise [ConnectionError], and the call
    returns the "could not connect" text. *)
Lemma C5_counterexample :
  fault_of_stall stall_reading_body = post_ConnectionError /\
  returned example_python example_globals
    (failing (fault_of_stall stall_reading_body)) example_prompt
  = Ok (VStr MSG_NO_CONNECTION) /\
  MSG_NO_CONNECTION <> MSG_TIMEOUT.
Proof. repeat split; try reflexivity. discriminate. Qed.

(** C5, amended.  With both credentials set, the one network call is made
    with [timeout=60], and when [requests.post] raises a [Timeout]
    ([ReadTimeout], or [ConnectTimeout], which is a [ConnectionError] as
    well) the call returns the "took too long" text, the Timeout failure:
    the [Timeout] clause comes first.  So a wait that runs out while the
    connection is made, or while the response is awaited, gives the
    Timeout failure; one that runs out while the body is read gives the
    "could not connect" text. *)
Theorem C5_bounded_wait_and_timeout (py : python) (g : globals) (post : Transport)
  (prompt_text : string) :
  configured g = true ->
  posts (effects py g post prompt_text) = [make_request g prompt_text] /\
  timeout (make_request g prompt_text) = 60 /\
  (forall f,
      post (make_request g prompt_text) = inr f ->
      isinstance (exn_of_post_fault f) requests_Timeout = true ->
      returned py g post prompt_text = Ok (VStr MSG_TIMEOUT) /\
      failure Timeout MSG_TIMEOUT) /\
  (forall place,
      post (make_request g prompt_text) = inr (fault_of_stall place) ->
      returned py g post prompt_text
      = Ok (VStr match place with
                 | stall_connecting | stall_awaiting_response => MSG_TIMEOUT
                 | stall_reading_body => MSG_NO_CONNECTION
                 end)).
Proof.
  intro Hg. split; [apply one_post, Hg |]. split; [reflexivity |]. split.
  - intros f Hpost Htimeout. split; [| constructor]. unfold returned.
    rewrite (call_post_fault py g post prompt_text Hg f Hpost), Htimeout.
    reflexivity.
  - intros place Hpost. unfold returned.
    rewrite (call_post_fault py g post prompt_text Hg _ Hpost).
    destruct place; reflexivity.
Qed.

(** A response that did not start in time, and a connection attempt that
    timed out. *)
Lemma C5_witness :
  returned example_python example_globals (failing post_ReadTimeout) example_prompt
    = Ok (VStr MSG_TIMEOUT) /\
  returned example_python example_globals
    (failing (fault_of_stall stall_connecting)) example_prompt
    = Ok (VStr MSG_TIMEOUT).
Proof.
  split.
  - exact (proj1 (proj1 (proj2 (proj2 (C5_bounded_wait_and_timeout example_python
             example_globals (failing post_ReadTimeout) example_prompt eq_refl)))
             post_ReadTimeout eq_refl eq_refl)).
  - exact (proj2 (proj2 (proj2 (C5_bounded_wait_and_timeout example_python
             example_globals (failing (fault_of_stall stall_connecting))
             example_prompt eq_refl)))
             stall_connecting eq_refl).
Defined.

(** ** C6: error statuses *)

(** C6 fails on the code, by the defect of C4.  With both credentials set,
    when the transport answers with a status from 400 to 599, the call
    prints the line of line 92, which holds the text of the response; when
    the standard output takes that line, the call returns the "API error"
    text, the RemoteError failure, with the three decimal digits of the
    status in it, whatever the body; when it does not, the
    [UnicodeEncodeError] leaves the call. *)
Theorem C6_error_status (py : python) (g : globals) (post : Transport)
  (prompt_text : string) (resp : Response) :
  configured g = true ->
  post (make_request g prompt_text) = inl resp ->
  400 <= status_code resp < 600 ->
  returned py g post prompt_text
  = (if can_print py (line_92 (status_code resp) (text resp)) then
       Ok (VStr ("An API error occurred: " ++ three_digits (status_code resp) ++
                 ". Please check your credentials or API usage."))
     else Raise UnicodeEncodeError) /\
  failure RemoteError
    ("An API error occurred: " ++ three_digits (status_code resp) ++
     ". Please check your credentials or API usage.").
Proof.
  intros Hg Hpost Hstatus.
  rewrite <- (str_of_int_three_digits _ Hstatus).
  split; [| apply failure_RemoteError].
  unfold returned.
  rewrite (call_error_status py g post prompt_text Hg resp Hpost).
  - destruct (can_print py (line_92 (status_code resp) (text resp))); reflexivity.
  - unfold is_error_status. apply andb_true_iff. split; lia.
Qed.

(** The status 500 of the specification's third test, with a body that
    would have decoded; and the same status with a body that the console
    cannot take. *)
Lemma C6_witness :
  returned example_python example_globals (answering 500 body_aspirin) example_prompt
  = Ok (VStr "An API error occurred: 500. Please check your credentials or API usage.") /\
  returned example_python example_globals (answering 500 e_acute) example_prompt
  = Raise UnicodeEncodeError.
Proof.
  split.
  - apply (C6_error_status example_python example_globals
             (answering 500 body_aspirin) example_prompt
             (http_response example_python 500 body_aspirin) eq_refl eq_refl).
    simpl. lia.
  - apply (C6_error_status example_python example_globals
             (answering 500 e_acute) example_prompt
             (http_response example_python 500 e_acute) eq_refl eq_refl).
    simpl. lia.
Defined.

(** ** C7: a body that does not decode *)

(** C7 fails on the code.  With both credentials set and a status that is
    not an error: when [response.json()] raises the [JSONDecodeError] of
    [json], the call prints the line of line 95, which holds the text of
    the response, and returns the "unreadable response" text, the
    MalformedResponse failure, when the standard output takes that line;
    when it does not, the [UnicodeEncodeError] leaves the call, the defect
    of C4.  Where [simplejson] can be imported the exception is no
    [json.JSONDecodeError]: the clause of line 94 lets it pass and the
    catch-all returns the "internal error" text. *)
Theorem C7_undecodable_body (py : python) (g : globals) (post : Transport)
  (prompt_text : string) (resp : Response) :
  configured g = true ->
  post (make_request g prompt_text) = inl resp ->
  is_error_status (status_code resp) = false ->
  (json_ resp = Raise JSONDecodeError ->
   returned py g post prompt_text
   = if can_print py (line_95 (text resp)) then Ok (VStr MSG_UNREADABLE)
     else Raise UnicodeEncodeError) /\
  (json_ resp = Raise JSONDecodeError_simplejson ->
   returned py g post prompt_text = Ok (VStr MSG_INTERNAL)) /\
  failure MalformedResponse MSG_UNREADABLE /\
  failure Internal MSG_INTERNAL.
Proof.
  intros Hg Hpost Hstatus. unfold returned.
  split; [| split; [| split; constructor]]; intro Hjson;
    rewrite (call_json_raises py g post prompt_text Hg resp _ Hpost Hstatus Hjson);
    cbn [isinstance].
  - destruct (can_print py (line_95 (text resp))); reflexivity.
  - rewrite can_print_99 by reflexivity. reflexivity.
Qed.

(** The HTML body of the specification's sixth test, where [simplejson]
    cannot be imported and where it can. *)
Lemma C7_witness :
  json_loads example_python body_html = Raise JSONDecodeError /\
  returned example_python example_globals (answering 200 body_html) example_prompt
  = Ok (VStr MSG_UNREADABLE) /\
  returned example_python example_globals
    (fun _ => inl (undecodable_with_simplejson 200 body_html)) example_prompt
  = Ok (VStr MSG_INTERNAL).
Proof.
  split; [reflexivity |]. split.
  - exact (proj1 (C7_undecodable_body example_python example_globals
             (answering 200 body_html) example_prompt
             (http_response example_python 200 body_html) eq_refl eq_refl eq_refl)
             eq_refl).
  - exact (proj1 (proj2 (C7_undecodable_body example_python example_globals
             (fun _ => inl (undecodable_with_simplejson 200 body_html)) example_prompt
             (undecodable_with_simplejson 200 body_html) eq_refl eq_refl eq_refl))
             eq_refl).
Defined.

(** ** C8: a decoded body without results *)

(** C8 fails as stated: the body [5] decodes, holds no "results", and the
    membership test of line 79 raises [TypeError] on it, so the call
    returns the "internal error" text. *)
Lemma C8_counterexample :
  json_loads example_python body_number = Ok (VInt 5) /\
  has_results (VInt 5) = Raise TypeError /\
  returned example_python example_globals (answering 200 body_number) example_prompt
  = Ok (VStr MSG_INTERNAL) /\
  MSG_INTERNAL <> MSG_UNEXPECTED_FORMAT.
Proof. repeat split; try reflexivity. discriminate. Qed.

(** C8, amended.  With both credentials set, when the transport answers
    with a status that is not an error and a body that decodes to an object
    without a "results" key or with an empty "results" array, and the
    standard output takes the line of line 82, which holds the decoded
    body, the call returns the "unexpected response format" text, the
    UnexpectedShape failure.  So it does when the body decodes to a value
    Python takes for false ([null], [false], zero, an empty string, array
    or object) and when it decodes to an array or a string that does not
    contain "results". *)
Theorem C8_no_results_is_unexpected_shape (py : python) (g : globals)
  (post : Transport) (prompt_text : string) (resp : Response)
  (response_data : value) :
  configured g = true ->
  post (make_request g prompt_text) = inl resp ->
  is_error_status (status_code resp) = false ->
  json_ resp = Ok response_data ->
  (exists items,
      response_data = VDict items /\
      (dict_get "results" items = None \/
       dict_get "results" items = Some (VList []))) \/
  truthy response_data = false \/
  (exists items,
      response_data = VList items /\ existsb (is_str "results") items = false) \/
  (exists s,
      response_data = VStr s /\ str_contains "results" s = false) ->
  can_print py (line_82 response_data) = true ->
  returned py g post prompt_text = Ok (VStr MSG_UNEXPECTED_FORMAT) /\
  failure UnexpectedShape MSG_UNEXPECTED_FORMAT.
Proof.
  intros Hg Hpost Hstatus Hjson Hshape P. split; [| constructor].
  unfold returned.
  rewrite (call_decoded py g post prompt_text Hg resp _ Hpost Hstatus Hjson).
  assert (E : has_results response_data = Ok false).
  { destruct Hshape as [(items & -> & H) | [H | [(items & -> & H) | (s & -> & H)]]].
    - apply (has_results_missing_or_empty _ H).
    - apply (has_results_falsy _ H).
    - apply (has_results_list _ H).
    - apply (has_results_str _ H). }
  rewrite E, P. reflexivity.
Qed.

(** The body of the specification's fifth test. *)
Lemma C8_witness :
  json_loads example_python body_empty_results = Ok (VDict [("results", VList [])]) /\
  returned example_python example_globals (answering 200 body_empty_results)
    example_prompt
  = Ok (VStr MSG_UNEXPECTED_FORMAT).
Proof.
  split; [reflexivity |].
  apply (C8_no_results_is_unexpected_shape example_python example_globals
           (answering 200 body_empty_results) example_prompt
           (http_response example_python 200 body_empty_results)
           (VDict [("results", VList [])]));
    try reflexivity.
  left. exists [("results", VList [])]. split; [reflexivity | right; reflexivity].
Defined.

(** A body without results that the console cannot take: the [print] of
    line 82 raises inside the [try] block, and the catch-all returns the
    "internal error" text. *)
Example unprintable_body_is_internal :
  json_loads example_python body_e_acute = Ok (VStr e_acute) /\
  has_results (VStr e_acute) = Ok false /\
  can_print example_python (line_82 (VStr e_acute)) = false /\
  call example_python example_globals (answering 200 body_e_acute) example_prompt
  = (Ok (VStr MSG_INTERNAL),
     [Post (make_request example_globals example_prompt);
      Print (line_99 UnicodeEncodeError)]).
Proof. repeat split; reflexivity. Qed.

(** The same on a console that encodes in UTF-8, for a body that decodes
    to a lone surrogate; that console takes the accented letter, in the
    body of an internal server error as well. *)
Example lone_surrogate_is_internal :
  json_loads utf8_python body_lone_surrogate
  = Ok (VStr (String "237" (String "176" (String "128" EmptyString)))) /\
  returned utf8_python example_globals
    (fun _ => inl (http_response utf8_python 200 body_lone_surrogate)) example_prompt
  = Ok (VStr MSG_INTERNAL) /\
  returned utf8_python example_globals
    (fun _ => inl (http_response utf8_python 200 body_e_acute)) example_prompt
  = Ok (VStr MSG_UNEXPECTED_FORMAT) /\
  returned utf8_python example_globals
    (fun _ => inl (http_response utf8_python 500 e_acute)) example_prompt
  = Ok (VStr "An API error occurred: 500. Please check your credentials or API usage.").
Proof. repeat split; reflexivity. Qed.

(** ** C9: the request *)

(** C9.  With both credentials set, the call makes exactly one network
    call: a POST to the fixed URL whose JSON body has exactly the keys
    "model_id", "input" (the prompt), "parameters" and "project_id" (the
    project id), the parameters being the decoding method, the maximum and
    minimum numbers of new tokens (500 and 50, the minimum below the
    maximum) and the repetition penalty. *)
Theorem C9_request_payload (py : python) (g : globals) (post : Transport)
  (prompt_text api_key project_id : string) :
  ibm_api_key g = Some api_key -> api_key <> "" ->
  ibm_project_id g = Some project_id -> project_id <> "" ->
  let parameters :=
    [ ("decoding_method", VStr "greedy");
      ("max_new_tokens", VInt 500);
      ("min_new_tokens", VInt 50);
      ("repetition_penalty", VFloat 1.1%float) ] in
  let payload :=
    [ ("model_id", VStr "ibm/granite-13b-instruct-v2");
      ("input", VStr prompt_text);
      ("parameters", VDict parameters);
      ("project_id", VStr project_id) ] in
  posts (effects py g post prompt_text) =
    [ {| url := "https://us-south.ml.cloud.ibm.com/ml/v1-beta/generation/text?version=2023-05-29";
         headers :=
           [ ("Authorization", VStr ("Bearer " ++ api_key));
             ("Content-Type", VStr "application/json");
             ("Accept", VStr "application/json");
             ("ibm-metrics-api-token", VStr api_key);
             ("ML-Instance-ID", VStr project_id) ];
         json := VDict payload;
         timeout := 60 |} ] /\
  dict_keys payload = ["model_id"; "input"; "parameters"; "project_id"] /\
  dict_keys parameters =
    ["decoding_method"; "max_new_tokens"; "min_new_tokens"; "repetition_penalty"] /\
  exists lo hi,
    dict_get "min_new_tokens" parameters = Some (VInt lo) /\
    dict_get "max_new_tokens" parameters = Some (VInt hi) /\
    lo <= hi.
Proof.
  intros Hkey Hkey' Hproject Hproject' parameters payload.
  assert (Hg : configured g = true).
  { apply configured_iff. exists api_key, project_id. repeat split; assumption. }
  split; [| split; [reflexivity | split; [reflexivity |]]].
  - rewrite (one_post py g post prompt_text Hg).
    unfold make_request, make_headers, make_payload. rewrite Hkey, Hproject.
    reflexivity.
  - exists 50, 500. split; [reflexivity | split; [reflexivity | lia]].
Qed.

(** The request made for the example prompt, whatever comes back. *)
Lemma C9_witness :
  posts (effects example_python example_globals (failing post_ConnectionError)
           example_prompt)
  = [ {| url := API_URL;
         headers :=
           [ ("Authorization", VStr "Bearer api-key");
             ("Content-Type", VStr "application/json");
             ("Accept", VStr "application/json");
             ("ibm-metrics-api-token", VStr "api-key");
             ("ML-Instance-ID", VStr "project-1") ];
         json :=
           VDict
             [ ("model_id", VStr MODEL_ID);
               ("input", VStr "What helps a headache?");
               ("parameters",
                 VDict
                   [ ("decoding_method", VStr "greedy");
                     ("max_new_tokens", VInt 500);
                     ("min_new_tokens", VInt 50);
                     ("repetition_penalty", VFloat 1.1%float) ]);
               ("project_id", VStr "project-1") ];
         timeout := 60 |} ].
Proof.
  apply (C9_request_payload example_python example_globals
           (failing post_ConnectionError) example_prompt "api-key" "project-1");
    (reflexivity || discriminate).
Defined.

(** ** C10: the default text *)

(** C10 fails as stated: in the body [{"results":[5]}] the first element
    of the array has no "generated_text", and since it is not a dict it has
    no [get] either, so the call returns the "internal error" text, a
    failure. *)
Lemma C10_counterexample :
  json_loads example_python body_number_result
  = Ok (VDict [("results", VList [VInt 5])]) /\
  first_generated_text (VDict [("results", VList [VInt 5])]) = Raise AttributeError /\
  returned example_python example_globals (answering 200 body_number_result)
    example_prompt
  = Ok (VStr MSG_INTERNAL) /\
  failure Internal MSG_INTERNAL /\
  MSG_INTERNAL <> NO_TEXT.
Proof. repeat split; try reflexivity; [constructor | discriminate]. Qed.

(** C10, amended.  With both credentials set, when the transport answers
    with a status that is not an error and a body that decodes to an object
    whose "results" is a non-empty array whose first element is an object
    without a "generated_text" key, the call returns the text "No text
    generated.", which is the text of no failure. *)
Theorem C10_default_text (py : python) (g : globals) (post : Transport)
  (prompt_text : string) (resp : Response) (items first : list (string * value))
  (rest : list value) :
  configured g = true ->
  post (make_request g prompt_text) = inl resp ->
  is_error_status (status_code resp) = false ->
  json_ resp = Ok (VDict items) ->
  dict_get "results" items = Some (VList (VDict first :: rest)) ->
  dict_get "generated_text" first = None ->
  returned py g post prompt_text = Ok (VStr "No text generated.") /\
  forall kind, ~ failure kind "No text generated.".
Proof.
  intros Hg Hpost Hstatus Hjson Hresults Htext.
  split; [| exact no_text_is_no_failure].
  apply (returned_decoded py g post prompt_text resp (VDict items) _
           Hg Hpost Hstatus Hjson).
  - apply (has_results_nonempty _ _ _ Hresults).
  - apply (first_generated_text_absent _ _ _ Hresults Htext).
Qed.

(** A result object that carries a stop reason and no text. *)
Lemma C10_witness :
  json_loads example_python body_no_generated_text
  = Ok (VDict [("results", VList [VDict [("stop_reason", VStr "eos_token")]])]) /\
  returned example_python example_globals (answering 200 body_no_generated_text)
    example_prompt
  = Ok (VStr "No text generated.").
Proof.
  split; [reflexivity |].
  apply (C10_default_text example_python example_globals
           (answering 200 body_no_generated_text) example_prompt
           (http_response example_python 200 body_no_generated_text)
           [("results", VList [VDict [("stop_reason", VStr "eos_token")]])]
           [("stop_reason", VStr "eos_token")] []);
    reflexivity.
Defined.

(** * Further properties of [get_granite_response] *)


(** X2.  With both credentials set, what a call returns and what it prints
    depend on the transport's answer alone: two calls whose transports
    answer alike return the same value and print the same lines, whatever
    the credentials and the prompts are.  The credentials go into the
    request and nowhere else. *)
Theorem X2_outcome_depends_on_answer_only (py : python) (g1 g2 : globals)
  (post1 post2 : Transport) (prompt1 prompt2 : string) :
  configured g1 = true ->
  configured g2 = true ->
  post1 (make_request g1 prompt1) = post2 (make_request g2 prompt2) ->
  returned py g1 post1 prompt1 = returned py g2 post2 prompt2 /\
  prints (effects py g1 post1 prompt1) = prints (effects py g2 post2 prompt2).
Proof.
  intros H1 H2 H. unfold returned, effects.
  destruct (post2 (make_request g2 prompt2)) as [resp | f] eqn:E.
  - destruct (is_error_status (status_code resp)) eqn:Hstatus.
    + rewrite (call_error_status py g1 post1 prompt1 H1 resp H Hstatus),
        (call_error_status py g2 post2 prompt2 H2 resp E Hstatus).
      destruct (can_print py (line_92 (status_code resp) (text resp)));
        split; reflexivity.
    + destruct (json_ resp) as [response_data | e] eqn:Hjson.
      * rewrite (call_decoded py g1 post1 prompt1 H1 resp _ H Hstatus Hjson),
          (call_decoded py g2 post2 prompt2 H2 resp _ E Hstatus Hjson).
        destruct (has_results response_data) as [[|] | e];
          [destruct (first_generated_text response_data)
          | destruct (can_print py (line_82 response_data)) |];
          split; reflexivity.
      * rewrite (call_json_raises py g1 post1 prompt1 H1 resp _ H Hstatus Hjson),
          (call_json_raises py g2 post2 prompt2 H2 resp _ E Hstatus Hjson).
        destruct e; cbn [isinstance];
          try (split; reflexivity);
          match goal with
          | |- context [can_print py ?line] =>
              destruct (can_print py line); split; reflexivity
          end.
  - rewrite (call_post_fault py g1 post1 prompt1 H1 f H),
      (call_post_fault py g2 post2 prompt2 H2 f E).
    destruct f; cbn [isinstance exn_of_post_fault];
      try (split; reflexivity).
    destruct (can_print py (line_99 (OtherException name))); split; reflexivity.
Qed.

(** Two sets of credentials and two prompts in front of one answer. *)
Lemma X2_witness :
  returned example_python example_globals (answering 500 body_aspirin) example_prompt
  = returned example_python
      {| ibm_api_key := Some "other-key"; ibm_project_id := Some "project-2" |}
      (answering 500 body_aspirin) "Is coffee healthy?" /\
  prints (effects example_python example_globals (answering 500 body_aspirin)
            example_prompt)
  = prints (effects example_python
              {| ibm_api_key := Some "other-key"; ibm_project_id := Some "project-2" |}
              (answering 500 body_aspirin) "Is coffee healthy?").
Proof.
  apply (X2_outcome_depends_on_answer_only example_python example_globals
           {| ibm_api_key := Some "other-key"; ibm_project_id := Some "project-2" |}
           (answering 500 body_aspirin) (answering 500 body_aspirin));
    reflexivity.
Defined.

(** X3.  Line 80 returns what it finds under "generated_text" as it is:
    when the first result is an object that has the key, the call returns
    its value whatever its JSON type, so a function declared [-> str] can
    return [None], a number, a list or a dict. *)
Theorem X3_generated_text_of_any_type (py : python) (g : globals) (post : Transport)
  (prompt_text : string) (resp : Response)
  (items first : list (string * value)) (rest : list value) (generated : value) :
  configured g = true ->
  post (make_request g prompt_text) = inl resp ->
  is_error_status (status_code resp) = false ->
  json_ resp = Ok (VDict items) ->
  dict_get "results" items = Some (VList (VDict first :: rest)) ->
  dict_get "generated_text" first = Some generated ->
  returned py g post prompt_text = Ok generated.
Proof.
  intros Hg Hpost Hstatus Hjson Hresults Htext.
  apply (returned_decoded py g post prompt_text resp (VDict items) _
           Hg Hpost Hstatus Hjson).
  - apply (has_results_nonempty _ _ _ Hresults).
  - apply (first_generated_text_present _ _ _ _ Hresults Htext).
Qed.

(** A generation whose text is [null]. *)
Lemma X3_witness :
  json_loads example_python body_null_text
  = Ok (VDict [("results", VList [VDict [("generated_text", VNone)]])]) /\
  returned example_python example_globals (answering 200 body_null_text) example_prompt
  = Ok VNone.
Proof.
  split; [reflexivity |].
  apply (X3_generated_text_of_any_type example_python example_globals _ _
           (http_response example_python 200 body_null_text)
           [("results", VList [VDict [("generated_text", VNone)]])]
           [("generated_text", VNone)] []);
    reflexivity.
Defined.

(** X4.  With both credentials set, when [requests.post] raises a
    [ConnectionError] that is not a timeout ([SSLError] and [ProxyError]
    included), the call returns the "could not connect" text. *)
Theorem X4_connection_failure (py : python) (g : globals) (post : Transport)
  (prompt_text : string) (f : post_fault) :
  configured g = true ->
  post (make_request g prompt_text) = inr f ->
  f = post_ConnectionError \/ f = post_SSLError \/ f = post_ProxyError ->
  returned py g post prompt_text = Ok (VStr MSG_NO_CONNECTION) /\
  prints (effects py g post prompt_text)
  = [[Text "Error: Could not connect to IBM Granite API. Check network and API URL."]].
Proof.
  intros Hg Hpost Hf. unfold returned, effects.
  rewrite (call_post_fault py g post prompt_text Hg f Hpost).
  destruct Hf as [-> | [-> | ->]]; split; reflexivity.
Qed.

Lemma X4_witness :
  returned example_python example_globals (failing post_SSLError) example_prompt
  = Ok (VStr MSG_NO_CONNECTION) /\
  prints (effects example_python example_globals (failing post_SSLError) example_prompt)
  = [[Text "Error: Could not connect to IBM Granite API. Check network and API URL."]].
Proof.
  apply (X4_connection_failure example_python example_globals (failing post_SSLError)
           example_prompt post_SSLError);
    [reflexivity | reflexivity | right; left; reflexivity].
Defined.

(** * Properties of the Flask routes *)

Lemma py_get_dict (key : string) (default : value) (items : list (string * value)) :
  py_get (VDict items) key default = Ok (dict_get_default key default items).
Proof.
  unfold py_get, dict_get_default. destruct (dict_get key items); reflexivity.
Qed.

Lemma py_get_not_dict (data : value) (key : string) (default : value) :
  match data with VDict _ => False | _ => True end ->
  py_get data key default = Raise AttributeError.
Proof. destruct data; simpl; intro H; (contradiction || reflexivity). Qed.

Ltac enter_route :=
  unfold chat_with_ai, predict_disease, generate_treatment_plan,
    health_analytics_insights, pure;
  cbn [bind Monad_Effectful]; rewrite ?py_get_dict; cbn [bind Monad_Effectful].

Ltac rejected H :=
  enter_route; unfold absent_or_falsy in H; rewrite H; reflexivity.

(** A route that accepts its request makes one call and wraps what it
    returns; an exception that leaves the call leaves the view. *)
Ltac accepted H :=
  enter_route; rewrite H;
  match goal with
  | |- context [call ?py ?g ?post ?p] =>
      rewrite (call_pair py g post p);
      destruct (returned py g post p); cbn; rewrite ?app_nil_r; reflexivity
  end.

Lemma chat_with_ai_accepted (py : python) (g : globals) (post : Transport)
  (items : list (string * value)) :
  truthy (dict_get_default "message" VNone items) = true ->
  chat_with_ai py g post (Ok (VDict items))
  = (match returned py g post
             (chat_prompt (py_format py (dict_get_default "message" VNone items)))
     with
     | Ok ai_response => Ok (VDict [("response", ai_response)], 200)
     | Raise e => Raise e
     end,
     effects py g post
       (chat_prompt (py_format py (dict_get_default "message" VNone items)))).
Proof. intro H. accepted H. Qed.

Lemma predict_disease_accepted (py : python) (g : globals) (post : Transport)
  (items : list (string * value)) :
  truthy (dict_get_default "symptoms" VNone items) = true ->
  predict_disease py g post (Ok (VDict items))
  = (match returned py g post
             (prediction_prompt (py_format py (dict_get_default "symptoms" VNone items))
                (json_dumps py (dict_get_default "profile" (VDict []) items)))
     with
     | Ok ai_response => Ok (VDict [("prediction", ai_response)], 200)
     | Raise e => Raise e
     end,
     effects py g post
       (prediction_prompt (py_format py (dict_get_default "symptoms" VNone items))
          (json_dumps py (dict_get_default "profile" (VDict []) items)))).
Proof. intro H. accepted H. Qed.

Lemma generate_treatment_plan_accepted (py : python) (g : globals) (post : Transport)
  (items : list (string * value)) :
  truthy (dict_get_default "condition" VNone items) = true ->
  generate_treatment_plan py g post (Ok (VDict items))
  = (match returned py g post
             (treatment_prompt (py_format py (dict_get_default "condition" VNone items))
                (json_dumps py (dict_get_default "profile" (VDict []) items)))
     with
     | Ok ai_response => Ok (VDict [("plan", ai_response)], 200)
     | Raise e => Raise e
     end,
     effects py g post
       (treatment_prompt (py_format py (dict_get_default "condition" VNone items))
          (json_dumps py (dict_get_default "profile" (VDict []) items)))).
Proof. intro H. accepted H. Qed.

Lemma health_analytics_insights_accepted (py : python) (g : globals) (post : Transport)
  (items : list (string * value)) :
  truthy (dict_get_default "data" VNone items) = true ->
  health_analytics_insights py g post (Ok (VDict items))
  = (match returned py g post
             (analytics_prompt (json_dumps py (dict_get_default "data" VNone items))
                (json_dumps py (dict_get_default "profile" (VDict []) items)))
     with
     | Ok ai_response => Ok (VDict [("insights", ai_response)], 200)
     | Raise e => Raise e
     end,
     effects py g post
       (analytics_prompt (json_dumps py (dict_get_default "data" VNone items))
          (json_dumps py (dict_get_default "profile" (VDict []) items)))).
Proof. intro H. accepted H. Qed.

(** X5.  Each of the four routes answers a JSON object whose required
    field ("message", "symptoms", "condition", "data") is absent or false
    for Python with status 400 and its own error object, and has no effect:
    [get_granite_response] is not called, nothing is sent and nothing is
    printed. *)
Theorem X5_required_field (py : python) (g : globals) (post : Transport)
  (items : list (string * value)) :
  (absent_or_falsy "message" items = true ->
   chat_with_ai py g post (Ok (VDict items))
   = (Ok (VDict [("error", VStr "No message provided")], 400), [])) /\
  (absent_or_falsy "symptoms" items = true ->
   predict_disease py g post (Ok (VDict items))
   = (Ok (VDict [("error", VStr "No symptoms provided")], 400), [])) /\
  (absent_or_falsy "condition" items = true ->
   generate_treatment_plan py g post (Ok (VDict items))
   = (Ok (VDict [("error", VStr "No condition provided")], 400), [])) /\
  (absent_or_falsy "data" items = true ->
   health_analytics_insights py g post (Ok (VDict items))
   = (Ok (VDict [("error", VStr "No health data provided")], 400), [])).
Proof. repeat split; intro H; rejected H. Qed.

(** An empty object, an empty message, and health data given as an empty
    list. *)
Lemma X5_witness :
  chat_with_ai example_python example_globals (answering 200 body_aspirin)
    (Ok (VDict []))
  = (Ok (VDict [("error", VStr "No message provided")], 400), []) /\
  chat_with_ai example_python example_globals (answering 200 body_aspirin)
    (Ok (VDict [("message", VStr "")]))
  = (Ok (VDict [("error", VStr "No message provided")], 400), []) /\
  health_analytics_insights example_python example_globals (answering 200 body_aspirin)
    (Ok (VDict [("data", VList []); ("profile", VDict [("age", VInt 30)])]))
  = (Ok (VDict [("error", VStr "No health data provided")], 400), []).
Proof.
  split; [| split].
  - exact (proj1 (X5_required_field example_python example_globals
             (answering 200 body_aspirin) []) eq_refl).
  - exact (proj1 (X5_required_field example_python example_globals
             (answering 200 body_aspirin) [("message", VStr "")]) eq_refl).
  - exact (proj2 (proj2 (proj2 (X5_required_field example_python example_globals
             (answering 200 body_aspirin)
             [("data", VList []); ("profile", VDict [("age", VInt 30)])]))) eq_refl).
Defined.

(** X6.  When the decoded body of the request is not a JSON object (it is
    [null], a number, a string or a list), each of the four routes lets
    the [AttributeError] of its first [data.get] leave the view function:
    there is no 400 reply, and no effect. *)
Theorem X6_body_must_be_an_object (py : python) (g : globals) (post : Transport)
  (data : value) :
  match data with VDict _ => False | _ => True end ->
  chat_with_ai py g post (Ok data) = (Raise AttributeError, []) /\
  predict_disease py g post (Ok data) = (Raise AttributeError, []) /\
  generate_treatment_plan py g post (Ok data) = (Raise AttributeError, []) /\
  health_analytics_insights py g post (Ok data) = (Raise AttributeError, []).
Proof.
  intro H.
  unfold chat_with_ai, predict_disease, generate_treatment_plan,
    health_analytics_insights, pure.
  cbn [bind Monad_Effectful].
  rewrite !(py_get_not_dict data _ _ H). repeat split; reflexivity.
Qed.

(** A body that is a list of messages. *)
Lemma X6_witness :
  chat_with_ai example_python example_globals (answering 200 body_aspirin)
    (Ok (VList [VStr "What helps a headache?"]))
  = (Raise AttributeError, []).
Proof.
  exact (proj1 (X6_body_must_be_an_object example_python example_globals
           (answering 200 body_aspirin) (VList [VStr "What helps a headache?"]) I)).
Defined.

(** X7.  Once the required field is there, each route makes one call of
    [get_granite_response], on the prompt built from the request, and its
    effects are those of that call.  When the call returns, the route
    answers with status 200 and an object with one key ("response",
    "prediction", "plan", "insights") that holds whatever the call
    returned, a failure text as well as a generated one: a failure of the
    model is not reported through the status.  When an exception leaves the
    call, it leaves the view function as well. *)
Theorem X7_reply_wraps_the_call (py : python) (g : globals) (post : Transport)
  (items : list (string * value)) :
  (absent_or_falsy "message" items = false ->
   chat_with_ai py g post (Ok (VDict items))
   = (match returned py g post
              (chat_prompt (py_format py (dict_get_default "message" VNone items)))
      with
      | Ok ai_response => Ok (VDict [("response", ai_response)], 200)
      | Raise e => Raise e
      end,
      effects py g post
        (chat_prompt (py_format py (dict_get_default "message" VNone items))))) /\
  (absent_or_falsy "symptoms" items = false ->
   predict_disease py g post (Ok (VDict items))
   = (match returned py g post
              (prediction_prompt (py_format py (dict_get_default "symptoms" VNone items))
                 (json_dumps py (dict_get_default "profile" (VDict []) items)))
      with
      | Ok ai_response => Ok (VDict [("prediction", ai_response)], 200)
      | Raise e => Raise e
      end,
      effects py g post
        (prediction_prompt (py_format py (dict_get_default "symptoms" VNone items))
           (json_dumps py (dict_get_default "profile" (VDict []) items))))) /\
  (absent_or_falsy "condition" items = false ->
   generate_treatment_plan py g post (Ok (VDict items))
   = (match returned py g post
              (treatment_prompt (py_format py (dict_get_default "condition" VNone items))
                 (json_dumps py (dict_get_default "profile" (VDict []) items)))
      with
      | Ok ai_response => Ok (VDict [("plan", ai_response)], 200)
      | Raise e => Raise e
      end,
      effects py g post
        (treatment_prompt (py_format py (dict_get_default "condition" VNone items))
           (json_dumps py (dict_get_default "profile" (VDict []) items))))) /\
  (absent_or_falsy "data" items = false ->
   health_analytics_insights py g post (Ok (VDict items))
   = (match returned py g post
              (analytics_prompt (json_dumps py (dict_get_default "data" VNone items))
                 (json_dumps py (dict_get_default "profile" (VDict []) items)))
      with
      | Ok ai_response => Ok (VDict [("insights", ai_response)], 200)
      | Raise e => Raise e
      end,
      effects py g post
        (analytics_prompt (json_dumps py (dict_get_default "data" VNone items))
           (json_dumps py (dict_get_default "profile" (VDict []) items))))).
Proof.
  unfold absent_or_falsy.
  repeat split; intro H; apply negb_false_iff in H.
  - apply chat_with_ai_accepted, H.
  - apply predict_disease_accepted, H.
  - apply generate_treatment_plan_accepted, H.
  - apply health_analytics_insights_accepted, H.
Qed.

(** A question whose call timed out: status 200 and the failure text.  A
    condition asked about without credentials: status 200 and the "not
    configured" text.  A question answered by an internal server error
    whose body the console cannot take: the view raises. *)
Lemma X7_witness :
  chat_with_ai example_python example_globals (failing post_ReadTimeout)
    (Ok (VDict [("message", VStr "What helps a headache?")]))
  = (Ok (VDict [("response", VStr MSG_TIMEOUT)], 200),
     effects example_python example_globals (failing post_ReadTimeout)
       (chat_prompt "What helps a headache?")) /\
  fst (generate_treatment_plan example_python
         {| ibm_api_key := None; ibm_project_id := None |} (answering 200 body_aspirin)
         (Ok (VDict [("condition", VStr "migraine")])))
  = Ok (VDict [("plan", VStr MSG_NOT_CONFIGURED)], 200) /\
  fst (chat_with_ai example_python example_globals (answering 500 e_acute)
         (Ok (VDict [("message", VStr "What helps a headache?")])))
  = Raise UnicodeEncodeError.
Proof.
  split; [| split].
  - rewrite (proj1 (X7_reply_wraps_the_call example_python example_globals
                      (failing post_ReadTimeout)
                      [("message", VStr "What helps a headache?")]) eq_refl).
    reflexivity.
  - rewrite (proj1 (proj2 (proj2 (X7_reply_wraps_the_call example_python
                      {| ibm_api_key := None; ibm_project_id := None |}
                      (answering 200 body_aspirin)
                      [("condition", VStr "migraine")]))) eq_refl).
    reflexivity.
  - rewrite (proj1 (X7_reply_wraps_the_call example_python example_globals
                      (answering 500 e_acute)
                      [("message", VStr "What helps a headache?")]) eq_refl).
    reflexivity.
Defined.

Lemma dict_get_app (key : string) (items extra : list (string * value)) :
  dict_get key (items ++ extra)
  = match dict_get key items with
    | Some v => Some v
    | None => dict_get key extra
    end.
Proof.
  induction items as [| [k x] rest IH]; simpl; [reflexivity |].
  destruct (String.eqb key k); [reflexivity | exact IH].
Qed.

(** X8.  The three routes that read a patient profile treat a request
    without a "profile" exactly as the same request with an empty profile
    object: they reply alike and have the same effects. *)
Theorem X8_profile_defaults_to_empty (py : python) (g : globals) (post : Transport)
  (items : list (string * value)) :
  dict_get "profile" items = None ->
  predict_disease py g post (Ok (VDict items))
  = predict_disease py g post (Ok (VDict (items ++ [("profile", VDict [])]))) /\
  generate_treatment_plan py g post (Ok (VDict items))
  = generate_treatment_plan py g post (Ok (VDict (items ++ [("profile", VDict [])]))) /\
  health_analytics_insights py g post (Ok (VDict items))
  = health_analytics_insights py g post (Ok (VDict (items ++ [("profile", VDict [])]))).
Proof.
  intro H. enter_route. unfold dict_get_default.
  rewrite !dict_get_app, H. cbn [dict_get String.eqb Ascii.eqb Bool.eqb].
  repeat split.
  - destruct (dict_get "symptoms" items); reflexivity.
  - destruct (dict_get "condition" items); reflexivity.
  - destruct (dict_get "data" items); reflexivity.
Qed.

Lemma X8_witness :
  predict_disease example_python example_globals (answering 200 body_aspirin)
    (Ok (VDict [("symptoms", VStr "persistent headache")]))
  = predict_disease example_python example_globals (answering 200 body_aspirin)
    (Ok (VDict [("symptoms", VStr "persistent headache"); ("profile", VDict [])])).
Proof.
  exact (proj1 (X8_profile_defaults_to_empty example_python example_globals
           (answering 200 body_aspirin)
           [("symptoms", VStr "persistent headache")] eq_refl)).
Defined.

(** X9.  With both credentials set, a route makes exactly one network call
    for a request it accepts, with the prompt built from the request as
    its input, and none for a request it rejects. *)
Theorem X9_one_network_call_per_accepted_request (py : python) (g : globals)
  (post : Transport) (items : list (string * value)) :
  configured g = true ->
  posts (snd (chat_with_ai py g post (Ok (VDict items))))
  = (if absent_or_falsy "message" items then []
     else [make_request g
             (chat_prompt (py_format py (dict_get_default "message" VNone items)))]) /\
  posts (snd (predict_disease py g post (Ok (VDict items))))
  = (if absent_or_falsy "symptoms" items then []
     else [make_request g
             (prediction_prompt
                (py_format py (dict_get_default "symptoms" VNone items))
                (json_dumps py (dict_get_default "profile" (VDict []) items)))]) /\
  posts (snd (generate_treatment_plan py g post (Ok (VDict items))))
  = (if absent_or_falsy "condition" items then []
     else [make_request g
             (treatment_prompt
                (py_format py (dict_get_default "condition" VNone items))
                (json_dumps py (dict_get_default "profile" (VDict []) items)))]) /\
  posts (snd (health_analytics_insights py g post (Ok (VDict items))))
  = (if absent_or_falsy "data" items then []
     else [make_request g
             (analytics_prompt
                (json_dumps py (dict_get_default "data" VNone items))
                (json_dumps py (dict_get_default "profile" (VDict []) items)))]).
Proof.
  intro Hg. unfold absent_or_falsy. repeat split.
  - destruct (truthy (dict_get_default "message" VNone items)) eqn:H; cbn [negb].
    + rewrite (chat_with_ai_accepted py g post items H).
      apply (one_post py g post _ Hg).
    + enter_route. rewrite H. reflexivity.
  - destruct (truthy (dict_get_default "symptoms" VNone items)) eqn:H; cbn [negb].
    + rewrite (predict_disease_accepted py g post items H).
      apply (one_post py g post _ Hg).
    + enter_route. rewrite H. reflexivity.
  - destruct (truthy (dict_get_default "condition" VNone items)) eqn:H; cbn [negb].
    + rewrite (generate_treatment_plan_accepted py g post items H).
      apply (one_post py g post _ Hg).
    + enter_route. rewrite H. reflexivity.
  - destruct (truthy (dict_get_default "data" VNone items)) eqn:H; cbn [negb].
    + rewrite (health_analytics_insights_accepted py g post items H).
      apply (one_post py g post _ Hg).
    + enter_route. rewrite H. reflexivity.
Qed.

(** The request the chat route sends for a question: the question closes
    the prompt, between apostrophes. *)
Lemma X9_witness :
  posts (snd (chat_with_ai example_python example_globals (failing post_ConnectionError)
                (Ok (VDict [("message", VStr "What helps a headache?")]))))
  = [make_request example_globals (chat_prompt "What helps a headache?")].
Proof.
  exact (proj1 (X9_one_network_call_per_accepted_request example_python
           example_globals (failing post_ConnectionError)
           [("message", VStr "What helps a headache?")] eq_refl)).
Defined.

(** ** The frontend: [call_flask_api] *)

Lemma call_flask_api_fault (lib : requests_lib) (base : string) (api : Api)
  (endpoint : string) (payload : value) (f : api_fault) :
  api (api_request base endpoint payload) = inr f ->
  call_flask_api lib base api endpoint payload
  = match f with
    | api_ConnectTimeout | api_ConnectionError =>
        (Done BACKEND_NOT_REACHABLE,
         [ApiPost (api_request base endpoint payload);
          StError [UiText "Error: Could not connect to the Flask backend at ";
                   UiText base; UiText ". ";
                   UiText "Please ensure the backend (app.py) is running."]])
    | api_ReadTimeout | api_RequestException _ =>
        (Done REQUEST_ERROR,
         [ApiPost (api_request base endpoint payload);
          StError [UiText "An unexpected request error occurred: ";
                   UiExn (ui_of_fault f)]])
    | api_Exception name =>
        (Escaped (ui_Exception name), [ApiPost (api_request base endpoint payload)])
    end.
Proof.
  intro H. unfold call_flask_api, api_post. rewrite H.
  destruct f; reflexivity.
Qed.

Lemma call_flask_api_decoded (lib : requests_lib) (base : string) (api : Api)
  (endpoint : string) (payload : value) (resp : ApiResponse) (v : value) :
  api (api_request base endpoint payload) = inl resp ->
  is_error_status (api_status resp) = false ->
  api_json resp = Decoded v ->
  call_flask_api lib base api endpoint payload
  = (Done v, [ApiPost (api_request base endpoint payload)]).
Proof.
  intros H Hs Hj.
  unfold call_flask_api, api_post, api_raise_for_status, api_response_json.
  rewrite H. cbn. rewrite Hs. cbn. rewrite Hj. reflexivity.
Qed.

Lemma call_flask_api_undecodable (lib : requests_lib) (base : string) (api : Api)
  (endpoint : string) (payload : value) (resp : ApiResponse) :
  api (api_request base endpoint payload) = inl resp ->
  is_error_status (api_status resp) = false ->
  api_json resp = Undecodable ->
  call_flask_api lib base api endpoint payload
  = match lib with
    | requests_from_2_27 =>
        (Done REQUEST_ERROR,
         [ApiPost (api_request base endpoint payload);
          StError [UiText "An unexpected request error occurred: ";
                   UiExn (ui_JSONDecodeError requests_from_2_27)]])
    | requests_before_2_27 =>
        (Done INVALID_JSON_RESPONSE,
         [ApiPost (api_request base endpoint payload); StError UNREADABLE_LINE])
    end.
Proof.
  intros H Hs Hj.
  unfold call_flask_api, api_post, api_raise_for_status, api_response_json.
  rewrite H. cbn. rewrite Hs. cbn. rewrite Hj. destruct lib; reflexivity.
Qed.

Lemma call_flask_api_error_object (lib : requests_lib) (base : string) (api : Api)
  (endpoint : string) (payload : value) (resp : ApiResponse)
  (items : list (string * value)) :
  api (api_request base endpoint payload) = inl resp ->
  is_error_status (api_status resp) = true ->
  api_json resp = Decoded (VDict items) ->
  call_flask_api lib base api endpoint payload
  = (Done API_REQUEST_FAILED,
     [ApiPost (api_request base endpoint payload);
      StError [UiText "Error from Flask API (";
               UiText (str_of_int (api_status resp)); UiText "): ";
               UiValue (dict_get_default "error" (VStr "Unknown API error") items)]]).
Proof.
  intros H Hs Hj.
  unfold call_flask_api, api_post, api_raise_for_status, on_api_HTTPError,
    api_response_json, dict_get_default.
  rewrite H. cbn. rewrite Hs. cbn. rewrite Hj. cbn.
  destruct (dict_get "error" items); reflexivity.
Qed.

Lemma call_flask_api_error_escapes (lib : requests_lib) (base : string) (api : Api)
  (endpoint : string) (payload : value) (resp : ApiResponse) :
  api (api_request base endpoint payload) = inl resp ->
  is_error_status (api_status resp) = true ->
  (forall items, api_json resp <> Decoded (VDict items)) ->
  call_flask_api lib base api endpoint payload
  = (Escaped match api_json resp with
             | Undecodable => ui_JSONDecodeError lib
             | Fails name => ui_Exception name
             | Decoded _ => ui_Builtin AttributeError
             end,
     [ApiPost (api_request base endpoint payload)]).
Proof.
  intros H Hs Hj.
  unfold call_flask_api, api_post, api_raise_for_status, on_api_HTTPError,
    api_response_json.
  rewrite H. cbn. rewrite Hs. cbn.
  destruct (api_json resp) as [v | | name]; [| reflexivity | reflexivity].
  destruct v; try reflexivity. exfalso. exact (Hj _ eq_refl).
Qed.

Lemma call_flask_api_fails (lib : requests_lib) (base : string) (api : Api)
  (endpoint : string) (payload : value) (resp : ApiResponse) (name : string) :
  api (api_request base endpoint payload) = inl resp ->
  is_error_status (api_status resp) = false ->
  api_json resp = Fails name ->
  call_flask_api lib base api endpoint payload
  = (Escaped (ui_Exception name), [ApiPost (api_request base endpoint payload)]).
Proof.
  intros H Hs Hj.
  unfold call_flask_api, api_post, api_raise_for_status, api_response_json.
  rewrite H. cbn. rewrite Hs. cbn. rewrite Hj. reflexivity.
Qed.

Lemma api_cases (api : Api) (r : Request) : api_case api r.
Proof.
  destruct (api r) as [resp | f] eqn:H.
  - destruct (is_error_status (api_status resp)) eqn:Hs;
      destruct (api_json resp) as [v | | name] eqn:Hj.
    + destruct v;
        try (eapply case_error_other; [exact H | exact Hs | rewrite Hj; discriminate]).
      eapply case_error_object; eassumption.
    + eapply case_error_other; [exact H | exact Hs | rewrite Hj; discriminate].
    + eapply case_error_other; [exact H | exact Hs | rewrite Hj; discriminate].
    + eapply case_decoded; eassumption.
    + eapply case_undecodable; eassumption.
    + eapply case_fails; eassumption.
  - eapply case_fault; exact H.
Qed.

Ltac by_api_case lib base api endpoint payload :=
  destruct (api_cases api (api_request base endpoint payload))
    as [f H | resp v H Hs Hj | resp H Hs Hj | resp name H Hs Hj
        | resp items H Hs Hj | resp H Hs Hj];
  [ rewrite (call_flask_api_fault lib base api endpoint payload f H)
  | rewrite (call_flask_api_decoded lib base api endpoint payload resp v H Hs Hj)
  | rewrite (call_flask_api_undecodable lib base api endpoint payload resp H Hs Hj)
  | rewrite (call_flask_api_fails lib base api endpoint payload resp name H Hs Hj)
  | rewrite (call_flask_api_error_object lib base api endpoint payload resp items H Hs Hj)
  | rewrite (call_flask_api_error_escapes lib base api endpoint payload resp H Hs Hj) ].

(** X10.  Every call of [call_flask_api] sends exactly one request,
    whatever the backend does: to the URL made of [FLASK_API_URL], a slash
    and the endpoint, with the payload as JSON body, no headers of its own
    and a wait of at most 60 seconds.  No failure is retried. *)
Theorem X10_one_request_per_call (lib : requests_lib) (base : string) (api : Api)
  (endpoint : string) (payload : value) :
  api_posts (snd (call_flask_api lib base api endpoint payload))
  = [ {| url := base ++ "/" ++ endpoint; headers := []; json := payload;
         timeout := 60 |} ].
Proof.
  by_api_case lib base api endpoint payload.
  - destruct f; reflexivity.
  - reflexivity.
  - destruct lib; reflexivity.
  - reflexivity.
  - reflexivity.
  - reflexivity.
Qed.

(** X11.  What [call_flask_api] returns is either the decoded body of a
    response whose status is no error, passed on as it is with nothing
    shown to the user, or one of the four error objects of its [except]
    clauses, after exactly one [st.error] line. *)
Theorem X11_body_or_error_object (lib : requests_lib) (base : string) (api : Api)
  (endpoint : string) (payload answer : value) :
  fst (call_flask_api lib base api endpoint payload) = Done answer ->
  (snd (call_flask_api lib base api endpoint payload)
   = [ApiPost (api_request base endpoint payload)] /\
   exists resp,
     api (api_request base endpoint payload) = inl resp /\
     is_error_status (api_status resp) = false /\
     api_json resp = Decoded answer) \/
  (In answer [BACKEND_NOT_REACHABLE; API_REQUEST_FAILED; REQUEST_ERROR;
         INVALID_JSON_RESPONSE] /\
   exists line,
     snd (call_flask_api lib base api endpoint payload)
     = [ApiPost (api_request base endpoint payload); StError line]).
Proof.
  by_api_case lib base api endpoint payload.
  - destruct f; cbn [fst snd]; intro E; try discriminate;
      injection E as <-; right; (split; [simpl; tauto | eexists; reflexivity]).
  - cbn [fst snd]. intro E. injection E as <-. left.
    split; [reflexivity |]. exists resp. auto.
  - destruct lib; cbn [fst snd]; intro E; injection E as <-; right;
      (split; [simpl; tauto | eexists; reflexivity]).
  - cbn [fst]. discriminate.
  - cbn [fst snd]. intro E. injection E as <-. right.
    split; [simpl; tauto | eexists; reflexivity].
  - cbn [fst]. discriminate.
Qed.

Lemma X11_witness :
  fst (call_flask_api requests_from_2_27 LOCAL_URL
         (api_answering 503 (Decoded (VDict [("error", VStr "overloaded")])))
         "chat" (VDict [("message", VStr "What helps a headache?")]))
  = Done API_REQUEST_FAILED /\
  ((snd (call_flask_api requests_from_2_27 LOCAL_URL
           (api_answering 503 (Decoded (VDict [("error", VStr "overloaded")])))
           "chat" (VDict [("message", VStr "What helps a headache?")]))
    = [ApiPost (api_request LOCAL_URL "chat"
                  (VDict [("message", VStr "What helps a headache?")]))] /\
    exists resp,
      api_answering 503 (Decoded (VDict [("error", VStr "overloaded")]))
        (api_request LOCAL_URL "chat"
           (VDict [("message", VStr "What helps a headache?")]))
      = inl resp /\
      is_error_status (api_status resp) = false /\
      api_json resp = Decoded API_REQUEST_FAILED) \/
   (In API_REQUEST_FAILED
      [BACKEND_NOT_REACHABLE; API_REQUEST_FAILED; REQUEST_ERROR;
       INVALID_JSON_RESPONSE] /\
    exists line,
      snd (call_flask_api requests_from_2_27 LOCAL_URL
             (api_answering 503 (Decoded (VDict [("error", VStr "overloaded")])))
             "chat" (VDict [("message", VStr "What helps a headache?")]))
      = [ApiPost (api_request LOCAL_URL "chat"
                    (VDict [("message", VStr "What helps a headache?")]));
         StError line])).
Proof.
  split; [reflexivity |].
  apply (X11_body_or_error_object requests_from_2_27 LOCAL_URL
           (api_answering 503 (Decoded (VDict [("error", VStr "overloaded")])))
           "chat" (VDict [("message", VStr "What helps a headache?")])
           API_REQUEST_FAILED).
  reflexivity.
Defined.

(** X12.  When [requests.post] raises, a failure to connect (a connect
    timeout, a refused connection, a TLS or proxy failure) is answered with
    the object "Backend not reachable."; a backend that accepted the
    connection and did not answer within the 60 seconds, and any other
    exception of [requests], with "Request error."; an exception that is
    not one of [requests] leaves [call_flask_api]. *)
Theorem X12_transport_failures (lib : requests_lib) (base : string) (api : Api)
  (endpoint : string) (payload : value) (f : api_fault) :
  api (api_request base endpoint payload) = inr f ->
  fst (call_flask_api lib base api endpoint payload)
  = match f with
    | api_ConnectTimeout | api_ConnectionError => Done BACKEND_NOT_REACHABLE
    | api_ReadTimeout | api_RequestException _ => Done REQUEST_ERROR
    | api_Exception name => Escaped (ui_Exception name)
    end.
Proof.
  intro H. rewrite (call_flask_api_fault lib base api endpoint payload f H).
  destruct f; reflexivity.
Qed.

Lemma X12_witness :
  fst (call_flask_api requests_from_2_27 LOCAL_URL (fun _ => inr api_ReadTimeout)
         "predict_disease" (VDict [("symptoms", VStr "fever")]))
  = Done REQUEST_ERROR.
Proof.
  exact (X12_transport_failures requests_from_2_27 LOCAL_URL
           (fun _ => inr api_ReadTimeout) "predict_disease"
           (VDict [("symptoms", VStr "fever")]) api_ReadTimeout eq_refl).
Defined.

(** X13.  A body that is no JSON, under a status that is no error: with
    [requests] from 2.27 on the clause for [RequestException] takes it,
    the object is "Request error.", and no call ever shows the line
    "Received an unreadable response from the backend" of the last
    clause; with an older [requests] the last clause takes it, with that
    line and the object "Invalid JSON response.". *)
Theorem X13_unreadable_body (base : string) (api : Api) (endpoint : string)
  (payload : value) :
  Forall (fun ev => ev <> StError UNREADABLE_LINE)
    (snd (call_flask_api requests_from_2_27 base api endpoint payload)) /\
  (forall resp,
     api (api_request base endpoint payload) = inl resp ->
     is_error_status (api_status resp) = false ->
     api_json resp = Undecodable ->
     fst (call_flask_api requests_from_2_27 base api endpoint payload)
     = Done REQUEST_ERROR /\
     call_flask_api requests_before_2_27 base api endpoint payload
     = (Done INVALID_JSON_RESPONSE,
        [ApiPost (api_request base endpoint payload); StError UNREADABLE_LINE])).
Proof.
  split.
  - by_api_case requests_from_2_27 base api endpoint payload;
      try destruct f; cbn [snd]; repeat constructor; discriminate.
  - intros resp H Hs Hj.
    rewrite !(call_flask_api_undecodable _ base api endpoint payload resp H Hs Hj).
    split; reflexivity.
Qed.

Lemma X13_witness :
  fst (call_flask_api requests_from_2_27 LOCAL_URL (api_answering 200 Undecodable)
         "chat" (VDict [("message", VStr "What helps a headache?")]))
  = Done REQUEST_ERROR /\
  call_flask_api requests_before_2_27 LOCAL_URL (api_answering 200 Undecodable)
    "chat" (VDict [("message", VStr "What helps a headache?")])
  = (Done INVALID_JSON_RESPONSE,
     [ApiPost (api_request LOCAL_URL "chat"
                 (VDict [("message", VStr "What helps a headache?")]));
      StError UNREADABLE_LINE]).
Proof.
  exact (proj2 (X13_unreadable_body LOCAL_URL (api_answering 200 Undecodable)
                  "chat" (VDict [("message", VStr "What helps a headache?")]))
           _ eq_refl eq_refl eq_refl).
Defined.

(** X14.  An error status (400 to 599) with a JSON object as body: the
    user is shown the status and the value under "error" of that object,
    "Unknown API error" when it has none, and the call returns the object
    "API request failed."; the body itself is not passed on. *)
Theorem X14_error_status_with_object (lib : requests_lib) (base : string)
  (api : Api) (endpoint : string) (payload : value) (status : Z)
  (items : list (string * value)) :
  400 <= status < 600 ->
  api (api_request base endpoint payload)
  = inl {| api_status := status; api_json := Decoded (VDict items) |} ->
  call_flask_api lib base api endpoint payload
  = (Done API_REQUEST_FAILED,
     [ApiPost (api_request base endpoint payload);
      StError [UiText "Error from Flask API ("; UiText (str_of_int status);
               UiText "): ";
               UiValue match dict_get "error" items with
                       | Some detail => detail
                       | None => VStr "Unknown API error"
                       end]]).
Proof.
  intros Hs H.
  apply (call_flask_api_error_object lib base api endpoint payload _ items H);
    [| reflexivity].
  unfold is_error_status. cbn [api_status].
  apply andb_true_iff. split; [apply Z.leb_le | apply Z.ltb_lt]; lia.
Qed.

Lemma X14_witness :
  call_flask_api requests_from_2_27 LOCAL_URL
    (api_answering 400 (Decoded (VDict [("error", VStr "No message provided")])))
    "chat" (VDict [("message", VStr "")])
  = (Done API_REQUEST_FAILED,
     [ApiPost (api_request LOCAL_URL "chat" (VDict [("message", VStr "")]));
      StError [UiText "Error from Flask API ("; UiText "400"; UiText "): ";
               UiValue (VStr "No message provided")]]).
Proof.
  apply (X14_error_status_with_object requests_from_2_27 LOCAL_URL
           (api_answering 400
              (Decoded (VDict [("error", VStr "No message provided")])))
           "chat" (VDict [("message", VStr "")]) 400
           [("error", VStr "No message provided")]).
  - lia.
  - reflexivity.
Defined.

(** X15.  [call_flask_api] lets an exception out in three situations
    only: [requests.post] raised an exception that is not one of
    [requests]; the status is no error and [response.json()] raised an
    exception that is neither a [RequestException] nor a
    [json.JSONDecodeError]; the status is an error and the body is not a
    JSON object (no JSON at all, as the HTML page of an internal server
    error, or JSON of another type).  In the third the exception comes
    from the [except] clause for [HTTPError] itself. *)
Theorem X15_when_an_exception_escapes (lib : requests_lib) (base : string)
  (api : Api) (endpoint : string) (payload : value) :
  (exists e, fst (call_flask_api lib base api endpoint payload) = Escaped e) <->
  (exists name, api (api_request base endpoint payload) = inr (api_Exception name)) \/
  (exists resp name,
     api (api_request base endpoint payload) = inl resp /\
     is_error_status (api_status resp) = false /\
     api_json resp = Fails name) \/
  (exists resp,
     api (api_request base endpoint payload) = inl resp /\
     is_error_status (api_status resp) = true /\
     forall items, api_json resp <> Decoded (VDict items)).
Proof.
  split.
  - by_api_case lib base api endpoint payload.
    + destruct f; cbn [fst]; intros [e E]; try discriminate.
      left. exists name. exact H.
    + cbn [fst]. intros [e E]. discriminate.
    + destruct lib; cbn [fst]; intros [e E]; discriminate.
    + intros _. right; left. exists resp, name. auto.
    + cbn [fst]. intros [e E]. discriminate.
    + intros _. right; right. exists resp. auto.
  - intros [[name H] | [(resp & name & H & Hs & Hj) | (resp & H & Hs & Hj)]].
    + rewrite (call_flask_api_fault lib base api endpoint payload _ H).
      eexists. reflexivity.
    + rewrite (call_flask_api_fails lib base api endpoint payload resp name H Hs Hj).
      eexists. reflexivity.
    + rewrite (call_flask_api_error_escapes lib base api endpoint payload resp H Hs Hj).
      eexists. reflexivity.
Qed.

(** ** The frontend: the four tabs *)

(** What a tab does after [call_flask_api] returned [result]: the test of
    the key, then the test of "error". *)
Ltac show_result result key :=
  destruct (py_in key result) as [[|] | ?]; cbn;
  [ destruct (py_getitem_str result key) as [? | ?]; reflexivity
  | destruct (py_in "error" result) as [[|] | ?]; cbn;
    [ destruct (py_getitem_str result "error") as [? | ?]; reflexivity
    | reflexivity
    | reflexivity ]
  | reflexivity ].

Ltac tab_posts lib base api endpoint payload key :=
  cbn [bind Monad_UI ui_emit];
  by_api_case lib base api endpoint payload;
  [ match goal with f : api_fault |- _ => destruct f end; reflexivity
  | cbn; match goal with |- context [py_in key ?v] => show_result v key end
  | destruct lib; reflexivity
  | reflexivity
  | reflexivity
  | reflexivity ].

(** X16.  A tab sends a request only when its button was pressed and its
    text is not empty, and then exactly one, to its own endpoint, with the
    text under its own key and, for the three tabs that have them, the age
    and gender under "profile".  An empty text never reaches the
    backend. *)
Theorem X16_requests_of_the_tabs (lib : requests_lib) (base : string) (api : Api)
  (clicked : bool) (text : string) (age : Z) (gender : string) :
  let profile := VDict [("age", VInt age); ("gender", VStr gender)] in
  let sent (endpoint : string) (payload : value) :=
    if clicked && negb (String.eqb text "")
    then [api_request base endpoint payload] else [] in
  api_posts (snd (tab1_patient_chat lib base api clicked text))
  = sent "chat" (VDict [("message", VStr text)]) /\
  api_posts (snd (tab2_disease_prediction lib base api clicked text age gender))
  = sent "predict_disease" (VDict [("symptoms", VStr text); ("profile", profile)]) /\
  api_posts (snd (tab3_treatment_plans lib base api clicked text age gender))
  = sent "generate_treatment_plan"
      (VDict [("condition", VStr text); ("profile", profile)]) /\
  api_posts (snd (tab4_health_analytics lib base api clicked text age gender))
  = sent "health_analytics_insights"
      (VDict [("data", VStr text); ("profile", profile)]).
Proof.
  intros profile sent. subst profile sent.
  unfold tab1_patient_chat, tab2_disease_prediction, tab3_treatment_plans,
    tab4_health_analytics.
  destruct clicked; [| repeat split; reflexivity].
  destruct (String.eqb text ""); [repeat split; reflexivity |].
  cbn [andb negb].
  split; [| split; [| split]].
  - tab_posts lib base api "chat" (VDict [("message", VStr text)]) "response".
  - tab_posts lib base api "predict_disease"
      (VDict [("symptoms", VStr text);
              ("profile", VDict [("age", VInt age); ("gender", VStr gender)])])
      "prediction".
  - tab_posts lib base api "generate_treatment_plan"
      (VDict [("condition", VStr text);
              ("profile", VDict [("age", VInt age); ("gender", VStr gender)])])
      "plan".
  - tab_posts lib base api "health_analytics_insights"
      (VDict [("data", VStr text);
              ("profile", VDict [("age", VInt age); ("gender", VStr gender)])])
      "insights".
Qed.

Lemma truthy_text (text : string) :
  String.eqb text "" = false -> truthy (VStr text) = true.
Proof. intro H. simpl. rewrite H. reflexivity. Qed.

(** What a tab does with the backend's answer to its request, for what the
    call of [get_granite_response] behind it did. *)
Ltac shown_by Hserved Hapi :=
  cbn [served] in Hserved; injection Hserved as <-;
  cbn [bind Monad_UI ui_emit];
  rewrite (call_flask_api_decoded _ _ _ _ _ _ _ Hapi eq_refl eq_refl);
  reflexivity.

Ltac crashed_by Hserved Hapi :=
  cbn [served] in Hserved; injection Hserved as <-;
  cbn [bind Monad_UI ui_emit];
  rewrite (call_flask_api_error_escapes _ _ _ _ _ _ Hapi eq_refl);
  [reflexivity | discriminate].

Ltac end_to_end Haccepted Hserved Hapi :=
  rewrite Haccepted in Hserved;
  cbn [fst dict_get_default dict_get String.eqb Ascii.eqb Bool.eqb py_format]
    in Hserved;
  split;
  [ let s := fresh "s" in
    let R := fresh "R" in
    intros s R; rewrite R in Hserved; shown_by Hserved Hapi
  | let R := fresh "R" in
    intro R; rewrite R in Hserved; crashed_by Hserved Hapi ].

(** X17.  Frontend and backend together.  When the backend at
    [FLASK_API_URL] serves the request of a tab with the route of the same
    name, a press of the button with a text that is not empty makes one
    call of [get_granite_response], on the prompt built from the text (and
    from [json.dumps] of the age and gender).  When that call returns a
    text, the tab shows it under its success line, a failure text as well
    as a generated one: the status is 200 and the key is there, so the
    branch for "error" is not taken.  When the [UnicodeEncodeError] of a
    [print] leaves the call, the view raises, Flask answers with the
    status 500 and an HTML page, the clause for [HTTPError] of
    [call_flask_api] raises on that page, and the exception leaves the
    tab after the spinner, nothing else shown. *)
Theorem X17_the_tab_shows_what_the_model_call_returned (lib : requests_lib)
  (base : string) (api : Api) (py : python) (g : globals) (post : Transport)
  (text : string) (age : Z) (gender : string) (resp : ApiResponse) :
  String.eqb text "" = false ->
  let profile := VDict [("age", VInt age); ("gender", VStr gender)] in
  let serves (route : result value -> Effectful HttpReply)
        (endpoint : string) (payload : value) :=
    served (fst (route (Ok payload))) = Some resp /\
    api (api_request base endpoint payload) = inl resp in
  (serves (chat_with_ai py g post) "chat" (VDict [("message", VStr text)]) ->
   (forall s,
       returned py g post (chat_prompt text) = Ok (VStr s) ->
       tab1_patient_chat lib base api true text
       = (Done tt,
          [StSpinner "HealthAI is thinking...";
           ApiPost (api_request base "chat" (VDict [("message", VStr text)]));
           StSuccess [UiText "Response from HealthAI:"];
           StMarkdown (VStr s)])) /\
   (returned py g post (chat_prompt text) = Raise UnicodeEncodeError ->
    tab1_patient_chat lib base api true text
    = (Escaped (ui_JSONDecodeError lib),
       [StSpinner "HealthAI is thinking...";
        ApiPost (api_request base "chat" (VDict [("message", VStr text)]))]))) /\
  (serves (predict_disease py g post) "predict_disease"
     (VDict [("symptoms", VStr text); ("profile", profile)]) ->
   (forall s,
       returned py g post (prediction_prompt text (json_dumps py profile))
       = Ok (VStr s) ->
       tab2_disease_prediction lib base api true text age gender
       = (Done tt,
          [StSpinner "Analyzing symptoms and predicting potential conditions...";
           ApiPost (api_request base "predict_disease"
                      (VDict [("symptoms", VStr text); ("profile", profile)]));
           StSuccess [UiText "Potential Conditions & Recommendations from HealthAI:"];
           StMarkdown (VStr s)])) /\
   (returned py g post (prediction_prompt text (json_dumps py profile))
    = Raise UnicodeEncodeError ->
    tab2_disease_prediction lib base api true text age gender
    = (Escaped (ui_JSONDecodeError lib),
       [StSpinner "Analyzing symptoms and predicting potential conditions...";
        ApiPost (api_request base "predict_disease"
                   (VDict [("symptoms", VStr text); ("profile", profile)]))]))) /\
  (serves (generate_treatment_plan py g post) "generate_treatment_plan"
     (VDict [("condition", VStr text); ("profile", profile)]) ->
   (forall s,
       returned py g post (treatment_prompt text (json_dumps py profile))
       = Ok (VStr s) ->
       tab3_treatment_plans lib base api true text age gender
       = (Done tt,
          [StSpinner "Generating personalized treatment plan...";
           ApiPost (api_request base "generate_treatment_plan"
                      (VDict [("condition", VStr text); ("profile", profile)]));
           StSuccess [UiText "Treatment Plan for "; UiText text;
                      UiText " from HealthAI:"];
           StMarkdown (VStr s)])) /\
   (returned py g post (treatment_prompt text (json_dumps py profile))
    = Raise UnicodeEncodeError ->
    tab3_treatment_plans lib base api true text age gender
    = (Escaped (ui_JSONDecodeError lib),
       [StSpinner "Generating personalized treatment plan...";
        ApiPost (api_request base "generate_treatment_plan"
                   (VDict [("condition", VStr text); ("profile", profile)]))]))) /\
  (serves (health_analytics_insights py g post) "health_analytics_insights"
     (VDict [("data", VStr text); ("profile", profile)]) ->
   (forall s,
       returned py g post
         (analytics_prompt (json_dumps py (VStr text)) (json_dumps py profile))
       = Ok (VStr s) ->
       tab4_health_analytics lib base api true text age gender
       = (Done tt,
          [StSpinner "Analyzing health data and generating insights...";
           ApiPost (api_request base "health_analytics_insights"
                      (VDict [("data", VStr text); ("profile", profile)]));
           StSuccess [UiText "Health Insights from HealthAI:"];
           StMarkdown (VStr s)])) /\
   (returned py g post
      (analytics_prompt (json_dumps py (VStr text)) (json_dumps py profile))
    = Raise UnicodeEncodeError ->
    tab4_health_analytics lib base api true text age gender
    = (Escaped (ui_JSONDecodeError lib),
       [StSpinner "Analyzing health data and generating insights...";
        ApiPost (api_request base "health_analytics_insights"
                   (VDict [("data", VStr text); ("profile", profile)]))]))).
Proof.
  intros Hne profile serves. subst profile serves.
  pose proof (truthy_text text Hne) as Ht.
  unfold tab1_patient_chat, tab2_disease_prediction, tab3_treatment_plans,
    tab4_health_analytics.
  rewrite Hne. cbn [negb].
  split; [| split; [| split]]; intros [Hserved Hapi].
  - end_to_end
      (chat_with_ai_accepted py g post [("message", VStr text)] Ht) Hserved Hapi.
  - end_to_end
      (predict_disease_accepted py g post
         [("symptoms", VStr text);
          ("profile", VDict [("age", VInt age); ("gender", VStr gender)])] Ht)
      Hserved Hapi.
  - end_to_end
      (generate_treatment_plan_accepted py g post
         [("condition", VStr text);
          ("profile", VDict [("age", VInt age); ("gender", VStr gender)])] Ht)
      Hserved Hapi.
  - end_to_end
      (health_analytics_insights_accepted py g post
         [("data", VStr text);
          ("profile", VDict [("age", VInt age); ("gender", VStr gender)])] Ht)
      Hserved Hapi.
Qed.

(** A question whose call of the model timed out: the failure text is
    shown under the success line. *)
Lemma X17_witness :
  served (fst (chat_with_ai example_python example_globals (failing post_ReadTimeout)
                 (Ok (VDict [("message", VStr "What helps a headache?")]))))
  = Some {| api_status := 200;
            api_json := Decoded (VDict [("response", VStr MSG_TIMEOUT)]) |} /\
  tab1_patient_chat requests_from_2_27 LOCAL_URL
    (api_answering 200 (Decoded (VDict [("response", VStr MSG_TIMEOUT)])))
    true "What helps a headache?"
  = (Done tt,
     [StSpinner "HealthAI is thinking...";
      ApiPost (api_request LOCAL_URL "chat"
                 (VDict [("message", VStr "What helps a headache?")]));
      StSuccess [UiText "Response from HealthAI:"];
      StMarkdown (VStr MSG_TIMEOUT)]).
Proof.
  split; [reflexivity |].
  apply (proj1 (proj1 (X17_the_tab_shows_what_the_model_call_returned
                         requests_from_2_27 LOCAL_URL
                         (api_answering 200
                            (Decoded (VDict [("response", VStr MSG_TIMEOUT)])))
                         example_python example_globals (failing post_ReadTimeout)
                         "What helps a headache?" 30 "Other"
                         {| api_status := 200;
                            api_json :=
                              Decoded (VDict [("response", VStr MSG_TIMEOUT)]) |}
                         eq_refl)
                  (conj eq_refl eq_refl))).
  reflexivity.
Defined.

(** X18.  A failure that [call_flask_api] has already reported is reported
    a second time by the tab: when the call returns an object whose only
    key is "error", the tab adds, after whatever the call showed, its own
    [st.error] line with the value under that key, and shows no success
    line. *)
Theorem X18_a_reported_failure_is_shown_again (lib : requests_lib) (base : string)
  (api : Api) (text : string) (age : Z) (gender : string) (detail : value)
  (shown : list ui_event) :
  String.eqb text "" = false ->
  let profile := VDict [("age", VInt age); ("gender", VStr gender)] in
  let failed (endpoint : string) (payload : value) :=
    call_flask_api lib base api endpoint payload
    = (Done (VDict [("error", detail)]), shown) in
  (failed "chat" (VDict [("message", VStr text)]) ->
   tab1_patient_chat lib base api true text
   = (Done tt,
      (StSpinner "HealthAI is thinking..." :: shown
       ++ [StError [UiText "Failed to get response: "; UiValue detail]])%list)) /\
  (failed "predict_disease" (VDict [("symptoms", VStr text); ("profile", profile)]) ->
   tab2_disease_prediction lib base api true text age gender
   = (Done tt,
      (StSpinner "Analyzing symptoms and predicting potential conditions..." :: shown
       ++ [StError [UiText "Failed to get prediction: "; UiValue detail]])%list)) /\
  (failed "generate_treatment_plan"
     (VDict [("condition", VStr text); ("profile", profile)]) ->
   tab3_treatment_plans lib base api true text age gender
   = (Done tt,
      (StSpinner "Generating personalized treatment plan..." :: shown
       ++ [StError [UiText "Failed to generate plan: "; UiValue detail]])%list)) /\
  (failed "health_analytics_insights"
     (VDict [("data", VStr text); ("profile", profile)]) ->
   tab4_health_analytics lib base api true text age gender
   = (Done tt,
      (StSpinner "Analyzing health data and generating insights..." :: shown
       ++ [StError [UiText "Failed to get insights: "; UiValue detail]])%list)).
Proof.
  intros Hne profile failed. subst profile failed.
  unfold tab1_patient_chat, tab2_disease_prediction, tab3_treatment_plans,
    tab4_health_analytics.
  rewrite Hne. cbn [negb bind Monad_UI ui_emit].
  split; [| split; [| split]]; intro Hcall; rewrite Hcall; reflexivity.
Qed.

Lemma X18_witness :
  tab2_disease_prediction requests_from_2_27 LOCAL_URL
    (fun _ => inr api_ConnectionError) true "fever and a cough" 30 "Other"
  = (Done tt,
     [StSpinner "Analyzing symptoms and predicting potential conditions...";
      ApiPost (api_request LOCAL_URL "predict_disease"
                 (VDict [("symptoms", VStr "fever and a cough");
                         ("profile", VDict [("age", VInt 30);
                                            ("gender", VStr "Other")])]));
      StError [UiText "Error: Could not connect to the Flask backend at ";
               UiText LOCAL_URL; UiText ". ";
               UiText "Please ensure the backend (app.py) is running."];
      StError [UiText "Failed to get prediction: ";
               UiValue (VStr "Backend not reachable.")]]).
Proof.
  exact (proj1 (proj2 (X18_a_reported_failure_is_shown_again requests_from_2_27
                         LOCAL_URL (fun _ => inr api_ConnectionError)
                         "fever and a cough" 30 "Other"
                         (VStr "Backend not reachable.") _ eq_refl))
           eq_refl).
Defined.
